(** * Fake-background yield estimate of the WH(tautau) plotting driver

    Shallow embedding of [estimate_fake_sum] and of the bin loop that
    consumes it (VHiggs/test/plotting/analysis.py), together with the part
    of the external [uncertainties] package the function relies on.

    Python floats are read as real numbers: every arithmetic operation is
    the exact one of [R], [math.sqrt] is [sqrt] on its domain.  The two
    run-time errors the arithmetic can raise (division by a zero float,
    square root of a negative float) are results of the embedding.
    Rounding, overflow and underflow are not represented: where a float
    operation of the source overflows, or a denominator underflows to zero,
    the source stops and the embedding returns the exact value.  A
    statement that a call returns is to be read for floats on which no
    such overflow or underflow occurs. *)

From Stdlib Require Import Reals Lra Lia List Arith Bool.
From Stdlib Require String.
Import ListNotations.
Import String.StringSyntax.
Delimit Scope string_scope with string.

Open Scope R_scope.

(** ** Exceptions and object identity *)

Inductive exception : Type :=
| ZeroDivisionError
| ValueError.

Inductive outcome (A : Type) : Type :=
| Returned (a : A)
| Raised (e : exception).

Arguments Returned {A} a.
Arguments Raised {A} e.

(** A computation threads the number of objects allocated so far: it is
    the identity given to the next [Variable] the package creates. *)
Definition Py (A : Type) : Type := nat -> outcome (A * nat).

Definition ret {A} (a : A) : Py A := fun next => Returned (a, next).

Definition raise {A} (e : exception) : Py A := fun _ => Raised e.

Definition bind {A B} (m : Py A) (k : A -> Py B) : Py B :=
  fun next =>
    match m next with
    | Returned (a, next') => k a next'
    | Raised e => Raised e
    end.

Notation "x <- m ;; k" := (bind m (fun x => k))
  (at level 61, m at next level, right associativity).

(** What the caller of a computation sees. *)
Definition result {A} (o : outcome (A * nat)) : outcome A :=
  match o with
  | Returned (a, _) => Returned a
  | Raised e => Raised e
  end.

(** ** Float primitives that can raise *)

Module math.

(** [math.sqrt(x)]: "math domain error" below zero. *)
Definition sqrt (x : R) : Py R :=
  if Rlt_dec x 0 then raise ValueError else ret (R_sqrt.sqrt x).

End math.

(** [x / y] on floats: "float division by zero". *)
Definition float_div (x y : R) : Py R :=
  if Req_dec_T y 0 then raise ZeroDivisionError else ret (x / y).

(** ** The [uncertainties] package: linear error propagation *)

Module uncertainties.

(** A [Variable] is an object: two variables are the same random variable
    exactly when they are the same object. *)
Record variable : Type := { var_id : nat; var_std_dev : R }.

(** [derivatives]: the dict from the variables a quantity depends on to
    the partial derivative with respect to each. *)
Definition dict : Type := list (variable * R).

Record AffineScalarFunc : Type :=
  { nominal_value : R; derivatives : dict }.

(** [ufloat((nominal, std_dev))] creates a new, independent variable. *)
Definition ufloat (nominal std : R) : Py AffineScalarFunc :=
  fun next =>
    let v := {| var_id := next; var_std_dev := std |} in
    Returned ({| nominal_value := nominal; derivatives := [(v, 1)] |},
              S next).

(** A plain number among the arguments of an operator depends on no
    variable. *)
Definition number (x : R) : AffineScalarFunc :=
  {| nominal_value := x; derivatives := [] |}.

(** [derivatives_wrt_vars[var] += x], the entry starting at [0.]. *)
Fixpoint accumulate (v : variable) (x : R) (d : dict) : dict :=
  match d with
  | [] => [(v, 0 + x)]
  | (w, y) :: d' =>
      if Nat.eqb (var_id v) (var_id w) then (w, y + x) :: d'
      else (w, y) :: accumulate v x d'
  end.

(** The chain rule of [wrap]: every argument comes with the partial
    derivative of the operator with respect to it. *)
Definition chain_rule (args : list (R * AffineScalarFunc)) : dict :=
  fold_left
    (fun acc (arg : R * AffineScalarFunc) =>
       fold_left
         (fun acc' (vd : variable * R) =>
            accumulate (fst vd) (fst arg * snd vd) acc')
         (derivatives (snd arg)) acc)
    args [].

Definition add (x y : AffineScalarFunc) : AffineScalarFunc :=
  {| nominal_value := nominal_value x + nominal_value y;
     derivatives := chain_rule [(1, x); (1, y)] |}.

Definition sub (x y : AffineScalarFunc) : AffineScalarFunc :=
  {| nominal_value := nominal_value x - nominal_value y;
     derivatives := chain_rule [(1, x); (-1, y)] |}.

Definition mul (x y : AffineScalarFunc) : AffineScalarFunc :=
  {| nominal_value := nominal_value x * nominal_value y;
     derivatives := chain_rule [(nominal_value y, x); (nominal_value x, y)] |}.

Definition div (x y : AffineScalarFunc) : Py AffineScalarFunc :=
  q <- float_div (nominal_value x) (nominal_value y) ;;
  ret {| nominal_value := q;
         derivatives :=
           chain_rule [(1 / nominal_value y, x);
                       (- nominal_value x / (nominal_value y) ^ 2, y)] |}.

(** [error_components]: the absolute contribution of every variable. *)
Definition error_components (u : AffineScalarFunc) : list R :=
  map (fun vd : variable * R => Rabs (snd vd * var_std_dev (fst vd)))
      (derivatives u).

(** [std_dev()]: the contributions summed in quadrature. *)
Definition std_dev (u : AffineScalarFunc) : R :=
  R_sqrt.sqrt
    (fold_left Rplus (map (fun delta => delta ^ 2) (error_components u)) 0).

End uncertainties.

Import uncertainties.

(** ** analysis.py *)

(** The dictionary [estimate_fake_sum] expects for one fake object type;
    the keys ['123'] and ['123en'] are the fields [_123] and [_123en]. *)
Record fakerate : Type :=
  { en : R; ewk_s : R; qcd_s : R; _123 : R; _123en : R }.

Definition get_rel_counting_err (number : R) : Py AffineScalarFunc :=
  root <- math.sqrt number ;;
  rel <- float_div root number ;;
  ufloat 1 rel.

Definition compute_errors (fr : fakerate) : Py AffineScalarFunc :=
  if Req_dec_T (en fr) 0 then ufloat 0 0
  else
    enriched_region_error <- get_rel_counting_err (en fr) ;;
    qcd_in_enriched_region_error <- get_rel_counting_err (_123en fr) ;;
    qcd_fraction <-
      div (mul (number (_123 fr)) qcd_in_enriched_region_error)
          (mul (number (en fr)) enriched_region_error) ;;
    ret (mul enriched_region_error
             (add (mul (sub (number 1) qcd_fraction) (number (ewk_s fr)))
                  (mul qcd_fraction (number (qcd_s fr))))).

(** The local [double_est]: the number [0] unless the doubly enriched
    region has events. *)
Definition double_est (fr12s fr12en : R) : Py AffineScalarFunc :=
  if Req_dec_T fr12en 0 then ret (number 0)
  else
    rel <- get_rel_counting_err fr12en ;;
    ret (mul (number fr12s) rel).

Definition estimate_fake_sum (fr1 fr2 : fakerate) (fr12s fr12en : R)
  : Py AffineScalarFunc :=
  fake1est <- compute_errors fr1 ;;
  fake2est <- compute_errors fr2 ;;
  double <- double_est fr12s fr12en ;;
  ret (sub (add fake1est fake2est) double).

(** The body of the bin loop of the driver: what [all_fakes] receives
    for one bin, [SetBinContent(i, max(0, total_yield.nominal_value))] and
    [SetBinError(i, total_yield.std_dev())]. *)
Definition py_max (a b : R) : R := if Rlt_dec a b then b else a.

Definition fill_bin (fake1 fake2 : fakerate) (doubles doubles_en : R)
  : Py (R * R) :=
  total_yield <- estimate_fake_sum fake1 fake2 doubles doubles_en ;;
  ret (py_max 0 (nominal_value total_yield), std_dev total_yield).

(** [get_data_fr_yield(region, bin)]: the content of bin [bin] of the
    histogram the plotter holds for [region].  The plotter is outside this
    file; its histograms are a parameter of the loop. *)
Definition yields : Type := String.string -> nat -> R.

(** The two dictionaries and the two numbers the loop builds for bin [i]. *)
Definition fake1 (get_data_fr_yield : yields) (i : nat) : fakerate :=
  {| en := get_data_fr_yield "fr1en"%string i;
     ewk_s := get_data_fr_yield "fr1s_ewk"%string i;
     qcd_s := get_data_fr_yield "fr1s_qcd"%string i;
     _123 := get_data_fr_yield "fr123en1_qcd"%string i;
     _123en := get_data_fr_yield "fr123en"%string i |}.

Definition fake2 (get_data_fr_yield : yields) (i : nat) : fakerate :=
  {| en := get_data_fr_yield "fr2en"%string i;
     ewk_s := get_data_fr_yield "fr2s_ewk"%string i;
     qcd_s := get_data_fr_yield "fr2s_qcd"%string i;
     _123 := get_data_fr_yield "fr123en2_qcd"%string i;
     _123en := get_data_fr_yield "fr123en"%string i |}.

Definition doubles (get_data_fr_yield : yields) (i : nat) : R :=
  get_data_fr_yield "fr12s_qcd"%string i.

Definition doubles_en (get_data_fr_yield : yields) (i : nat) : R :=
  get_data_fr_yield "fr12en"%string i.

(** [for a in l: body(a)]: the bodies run in order, the first exception
    leaves the loop. *)
Fixpoint for_each {A B : Type} (l : list A) (body : A -> Py B)
  : Py (list B) :=
  match l with
  | [] => ret []
  | a :: l' =>
      b <- body a ;;
      bs <- for_each l' body ;;
      ret (b :: bs)
  end.

(** The body of the bin loop for bin [i]: the bin, with the content and
    the error [all_fakes] receives for it. *)
Definition loop_body (get_data_fr_yield : yields) (i : nat)
  : Py (nat * (R * R)) :=
  stored <- fill_bin (fake1 get_data_fr_yield i)
                     (fake2 get_data_fr_yield i)
                     (doubles get_data_fr_yield i)
                     (doubles_en get_data_fr_yield i) ;;
  ret (i, stored).

(** [for i in range(0, data_fr2s_ewk.GetNbinsX()+2)]: the bins, contents
    and errors written to [all_fakes], in the order of the writes. *)
Definition fill_all_fakes (get_data_fr_yield : yields) (GetNbinsX : nat)
  : Py (list (nat * (R * R))) :=
  for_each (seq 0 (GetNbinsX + 2)) (loop_body get_data_fr_yield).

(** ** Vocabulary of the statements *)

(** The identities of the variables a dict mentions. *)
Definition ids (d : dict) : list nat :=
  map (fun vd : variable * R => var_id (fst vd)) d.

(** The square of [std_dev]. *)
Definition variance (u : AffineScalarFunc) : R :=
  fold_left Rplus (map (fun delta => delta ^ 2) (error_components u)) 0.

(** All variables of [u] were created while the allocator went from [lo]
    to [hi], and none is listed twice. *)
Definition allocated (lo hi : nat) (u : AffineScalarFunc) : Prop :=
  NoDup (ids (derivatives u)) /\
  Forall (fun i => (lo <= i < hi)%nat) (ids (derivatives u)).

(** The regions on which [compute_errors] divides by no zero and takes no
    root of a negative number. *)
Definition region_defined (fr : fakerate) : Prop :=
  en fr = 0 \/ (0 < en fr /\ 0 < _123en fr).

(** The central value of the QCD/EWK mix of a region. *)
Definition mix (fr : fakerate) : R :=
  (1 - _123 fr / en fr) * ewk_s fr + _123 fr / en fr * qcd_s fr.

(** The entries [wrap] creates for an argument whose variables are all
    new to the dict under construction. *)
Definition scaled (k : R) (d : dict) : dict :=
  map (fun vd : variable * R => (fst vd, 0 + k * snd vd)) d.

(** The variable [get_rel_counting_err] creates for a count [n] when the
    allocator stands at [id]. *)
Definition counting_variable (id : nat) (n : R) : variable :=
  {| var_id := id; var_std_dev := sqrt n / n |}.

(** Central value and variance of the estimate of one region, in closed
    form. *)
Definition central_estimate (fr : fakerate) : R :=
  if Req_dec_T (en fr) 0 then 0 else mix fr.

Definition region_variance (fr : fakerate) : R :=
  if Req_dec_T (en fr) 0 then 0
  else (ewk_s fr) ^ 2 / en fr
       + ((qcd_s fr - ewk_s fr) * (_123 fr / en fr)) ^ 2 / _123en fr.

(** Central value and variance of the double-object term, in closed
    form. *)
Definition double_central (fr12s fr12en : R) : R :=
  if Req_dec_T fr12en 0 then 0 else fr12s.

Definition double_variance (fr12s fr12en : R) : R :=
  if Req_dec_T fr12en 0 then 0 else fr12s ^ 2 / fr12en.

(** The inputs of the data model: no count and no estimate is negative. *)
Definition valid_region (fr : fakerate) : Prop :=
  0 <= en fr /\ 0 <= ewk_s fr /\ 0 <= qcd_s fr /\
  0 <= _123 fr /\ 0 <= _123en fr.

(** A region with no event at all. *)
Definition empty_region : fakerate :=
  {| en := 0; ewk_s := 0; qcd_s := 0; _123 := 0; _123en := 0 |}.

(** The first region of the end-to-end scenario. *)
Definition scenario_region1 : fakerate :=
  {| en := 100; ewk_s := 10; qcd_s := 20; _123 := 5; _123en := 50 |}.

(** A region with events whose triple-fake sample is empty. *)
Definition degenerate_region : fakerate :=
  {| en := 1; ewk_s := 0; qcd_s := 0; _123 := 0; _123en := 0 |}.

(** The inputs on which a region stops on the root of a negative count. *)
Definition region_negative (fr : fakerate) : Prop :=
  en fr < 0 \/ (0 < en fr /\ _123en fr < 0).

(** The inputs on which a region stops on a division by zero. *)
Definition region_degenerate (fr : fakerate) : Prop :=
  0 < en fr /\ _123en fr = 0.

(** The exception a region stops on, and the one the three terms stop on:
    the terms are computed in the order region 1, region 2, double-object
    term, and the first one that fails decides. *)
Definition region_error (fr : fakerate) (e : exception) : Prop :=
  (e = ValueError /\ region_negative fr)
  \/ (e = ZeroDivisionError /\ region_degenerate fr).

Definition estimate_error (fr1 fr2 : fakerate) (fr12en : R) (e : exception)
  : Prop :=
  region_error fr1 e
  \/ (region_defined fr1 /\ region_error fr2 e)
  \/ (region_defined fr1 /\ region_defined fr2
      /\ fr12en < 0 /\ e = ValueError).

(** A region whose two signal estimates are multiplied by [k]. *)
Definition scale_estimates (k : R) (fr : fakerate) : fakerate :=
  {| en := en fr; ewk_s := k * ewk_s fr; qcd_s := k * qcd_s fr;
     _123 := _123 fr; _123en := _123en fr |}.

(** The bins of the loop on which the three terms are defined, and what is
    written for them, in closed form. *)
Definition bin_defined (y : yields) (i : nat) : Prop :=
  region_defined (fake1 y i) /\ region_defined (fake2 y i)
  /\ 0 <= doubles_en y i.

Definition bin_content (y : yields) (i : nat) : R :=
  py_max 0 (central_estimate (fake1 y i) + central_estimate (fake2 y i)
            - double_central (doubles y i) (doubles_en y i)).

Definition bin_error (y : yields) (i : nat) : R :=
  sqrt (region_variance (fake1 y i) + region_variance (fake2 y i)
        + double_variance (doubles y i) (doubles_en y i)).

(** Histograms with the contents of the end-to-end scenario in every
    bin. *)
Definition scenario_yields : yields :=
  fun region _ =>
    if String.eqb region "fr1en" then 100
    else if String.eqb region "fr1s_ewk" then 10
    else if String.eqb region "fr1s_qcd" then 20
    else if String.eqb region "fr123en1_qcd" then 5
    else if String.eqb region "fr123en" then 50
    else 0.

(** Histograms whose triple-fake sample is empty in every bin while the
    first enriched region has one event. *)
Definition degenerate_yields : yields :=
  fun region _ => if String.eqb region "fr1en" then 1 else 0.

(** ** Sums in quadrature *)

Section Quadrature.

Lemma fold_left_Rplus_acc (l : list R) (a : R) :
  fold_left Rplus l a = a + fold_left Rplus l 0.
Proof.
  revert a. induction l as [| x l IH]; intros a; cbn [fold_left].
  - lra.
  - rewrite (IH (a + x)), (IH (0 + x)). lra.
Qed.

Lemma fold_left_Rplus_app (l1 l2 : list R) :
  fold_left Rplus (l1 ++ l2) 0 = fold_left Rplus l1 0 + fold_left Rplus l2 0.
Proof.
  rewrite fold_left_app. apply fold_left_Rplus_acc.
Qed.

Lemma fold_left_squares_nonneg (l : list R) :
  0 <= fold_left Rplus (map (fun delta => delta ^ 2) l) 0.
Proof.
  induction l as [| x l IH]; cbn [map fold_left].
  - lra.
  - rewrite fold_left_Rplus_acc. pose proof (pow2_ge_0 x). lra.
Qed.

Lemma variance_nonneg (u : AffineScalarFunc) : 0 <= variance u.
Proof. apply fold_left_squares_nonneg. Qed.

Lemma std_dev_variance (u : AffineScalarFunc) :
  std_dev u = sqrt (variance u).
Proof. reflexivity. Qed.

Lemma std_dev_sqr (u : AffineScalarFunc) : std_dev u ^ 2 = variance u.
Proof.
  rewrite std_dev_variance. apply pow2_sqrt, variance_nonneg.
Qed.

Lemma std_dev_nonneg (u : AffineScalarFunc) : 0 <= std_dev u.
Proof. apply sqrt_pos. Qed.

End Quadrature.

(** ** Independent arguments of an operator *)

Section Independence.

Lemma ids_app (d1 d2 : dict) : ids (d1 ++ d2) = ids d1 ++ ids d2.
Proof. apply map_app. Qed.

Lemma ids_scaled (k : R) (d : dict) : ids (scaled k d) = ids d.
Proof.
  unfold ids, scaled. rewrite map_map. reflexivity.
Qed.

Lemma accumulate_new (v : variable) (x : R) (d : dict) :
  ~ In (var_id v) (ids d) -> accumulate v x d = d ++ [(v, 0 + x)].
Proof.
  induction d as [| [w y] d IH]; intros Hnew; cbn [accumulate app].
  - reflexivity.
  - cbn [ids map fst In] in Hnew.
    destruct (Nat.eqb_spec (var_id v) (var_id w)) as [Heq | _].
    + exfalso. apply Hnew. left. symmetry. exact Heq.
    + rewrite IH; [reflexivity |]. intros Hin. apply Hnew. right. exact Hin.
Qed.

Lemma fold_accumulate_new (k : R) (l acc : dict) :
  NoDup (ids l) ->
  (forall i, In i (ids l) -> ~ In i (ids acc)) ->
  fold_left
    (fun acc' (vd : variable * R) => accumulate (fst vd) (k * snd vd) acc')
    l acc
  = acc ++ scaled k l.
Proof.
  revert acc. induction l as [| vd l IH]; intros acc Hnd Hnew.
  - cbn. rewrite app_nil_r. reflexivity.
  - cbn [fold_left]. cbn [ids map] in Hnd, Hnew.
    inversion Hnd as [| i l' Hnotin Hnd' ]; subst.
    rewrite accumulate_new by (apply Hnew; left; reflexivity).
    rewrite IH.
    + rewrite <- app_assoc. reflexivity.
    + exact Hnd'.
    + intros i Hi. rewrite ids_app. intros Hin.
      apply in_app_or in Hin. destruct Hin as [Hin | Hin].
      * apply (Hnew i); [right; exact Hi | exact Hin].
      * cbn in Hin. destruct Hin as [Hin | []]. subst i.
        apply Hnotin. exact Hi.
Qed.

Lemma chain_rule_independent (a b : R) (x y : AffineScalarFunc) :
  NoDup (ids (derivatives x)) ->
  NoDup (ids (derivatives y)) ->
  (forall i, In i (ids (derivatives y)) -> ~ In i (ids (derivatives x))) ->
  chain_rule [(a, x); (b, y)]
  = scaled a (derivatives x) ++ scaled b (derivatives y).
Proof.
  intros Hx Hy Hxy. unfold chain_rule. cbn [fold_left fst snd].
  rewrite (fold_accumulate_new a (derivatives x) []);
    [| exact Hx | intros i _ []].
  cbn [app]. rewrite fold_accumulate_new; [reflexivity | exact Hy |].
  intros i Hi. rewrite ids_scaled. apply Hxy. exact Hi.
Qed.

End Independence.

(** ** Variance of sums and differences of independent quantities *)

Section Variance.

Lemma variance_scaled (k n : R) (d : dict) :
  variance {| nominal_value := n; derivatives := scaled k d |}
  = k ^ 2 * variance {| nominal_value := n; derivatives := d |}.
Proof.
  unfold variance, error_components. cbn [derivatives].
  induction d as [| [v x] d IH]; cbn [scaled map fold_left fst snd].
  - lra.
  - rewrite fold_left_Rplus_acc.
    rewrite (fold_left_Rplus_acc _ (0 + _)).
    unfold scaled in IH. rewrite IH.
    rewrite !pow2_abs. ring.
Qed.

Lemma variance_app (n n1 n2 : R) (d1 d2 : dict) :
  variance {| nominal_value := n; derivatives := d1 ++ d2 |}
  = variance {| nominal_value := n1; derivatives := d1 |}
    + variance {| nominal_value := n2; derivatives := d2 |}.
Proof.
  unfold variance, error_components. cbn [derivatives].
  rewrite !map_app. apply fold_left_Rplus_app.
Qed.

Lemma variance_eta (n : R) (u : AffineScalarFunc) :
  variance {| nominal_value := n; derivatives := derivatives u |}
  = variance u.
Proof. reflexivity. Qed.

Lemma variance_combination (a b n : R) (x y : AffineScalarFunc) :
  NoDup (ids (derivatives x)) ->
  NoDup (ids (derivatives y)) ->
  (forall i, In i (ids (derivatives y)) -> ~ In i (ids (derivatives x))) ->
  variance {| nominal_value := n;
              derivatives := chain_rule [(a, x); (b, y)] |}
  = a ^ 2 * variance x + b ^ 2 * variance y.
Proof.
  intros Hx Hy Hxy. rewrite chain_rule_independent by assumption.
  rewrite (variance_app n n n), !variance_scaled, !variance_eta.
  reflexivity.
Qed.

Lemma variance_add (x y : AffineScalarFunc) :
  NoDup (ids (derivatives x)) ->
  NoDup (ids (derivatives y)) ->
  (forall i, In i (ids (derivatives y)) -> ~ In i (ids (derivatives x))) ->
  variance (add x y) = variance x + variance y.
Proof.
  intros Hx Hy Hxy. unfold add.
  rewrite variance_combination by assumption. ring.
Qed.

Lemma variance_sub (x y : AffineScalarFunc) :
  NoDup (ids (derivatives x)) ->
  NoDup (ids (derivatives y)) ->
  (forall i, In i (ids (derivatives y)) -> ~ In i (ids (derivatives x))) ->
  variance (sub x y) = variance x + variance y.
Proof.
  intros Hx Hy Hxy. unfold sub.
  rewrite variance_combination by assumption. ring.
Qed.

Lemma ids_add (x y : AffineScalarFunc) :
  NoDup (ids (derivatives x)) ->
  NoDup (ids (derivatives y)) ->
  (forall i, In i (ids (derivatives y)) -> ~ In i (ids (derivatives x))) ->
  ids (derivatives (add x y)) = ids (derivatives x) ++ ids (derivatives y).
Proof.
  intros Hx Hy Hxy. unfold add. cbn [derivatives].
  rewrite chain_rule_independent by assumption.
  rewrite ids_app, !ids_scaled. reflexivity.
Qed.

End Variance.

(** ** Outcomes of the functions of analysis.py *)

Lemma eqb_succ_r (c : nat) : Nat.eqb c (S c) = false.
Proof. apply Nat.eqb_neq. lia. Qed.

Lemma eqb_succ_l (c : nat) : Nat.eqb (S c) c = false.
Proof. apply Nat.eqb_neq. lia. Qed.

(** Run the dict updates of the wrapped operators on explicit dicts. *)
Ltac run_dict :=
  unfold mul, add, sub, number, chain_rule;
  repeat (cbn [fold_left accumulate derivatives nominal_value fst snd var_id];
          rewrite ?Nat.eqb_refl, ?eqb_succ_r, ?eqb_succ_l).

Section Outcomes.

Lemma get_rel_counting_err_pos (n : R) (c : nat) :
  0 < n ->
  get_rel_counting_err n c
  = Returned ({| nominal_value := 1;
                 derivatives := [(counting_variable c n, 1)] |}, S c).
Proof.
  intros Hn. unfold get_rel_counting_err, bind, math.sqrt, float_div.
  destruct (Rlt_dec n 0) as [Hneg | _]; [lra |].
  unfold ret. destruct (Req_dec_T n 0) as [Hz | _]; [lra |].
  reflexivity.
Qed.

Lemma get_rel_counting_err_zero (c : nat) :
  get_rel_counting_err 0 c = Raised ZeroDivisionError.
Proof.
  unfold get_rel_counting_err, bind, math.sqrt, float_div.
  destruct (Rlt_dec 0 0) as [Hneg | _]; [lra |].
  unfold ret. destruct (Req_dec_T 0 0) as [_ | Hnz]; [reflexivity | lra].
Qed.

Lemma get_rel_counting_err_neg (n : R) (c : nat) :
  n < 0 -> get_rel_counting_err n c = Raised ValueError.
Proof.
  intros Hn. unfold get_rel_counting_err, bind, math.sqrt.
  destruct (Rlt_dec n 0) as [_ | Hpos]; [reflexivity | lra].
Qed.

Lemma compute_errors_zero (fr : fakerate) (c : nat) :
  en fr = 0 ->
  compute_errors fr c
  = Returned ({| nominal_value := 0;
                 derivatives := [({| var_id := c; var_std_dev := 0 |}, 1)] |},
              S c).
Proof.
  intros Hz. unfold compute_errors.
  destruct (Req_dec_T (en fr) 0) as [_ | Hnz]; [reflexivity | lra].
Qed.

Lemma compute_errors_neg_en (fr : fakerate) (c : nat) :
  en fr < 0 -> compute_errors fr c = Raised ValueError.
Proof.
  intros Hneg. unfold compute_errors.
  destruct (Req_dec_T (en fr) 0) as [Hz | _]; [lra |].
  unfold bind. rewrite get_rel_counting_err_neg by assumption. reflexivity.
Qed.

Lemma compute_errors_neg_123en (fr : fakerate) (c : nat) :
  0 < en fr -> _123en fr < 0 -> compute_errors fr c = Raised ValueError.
Proof.
  intros Hen Hneg. unfold compute_errors.
  destruct (Req_dec_T (en fr) 0) as [Hz | _]; [lra |].
  unfold bind. rewrite get_rel_counting_err_pos by assumption.
  rewrite get_rel_counting_err_neg by assumption. reflexivity.
Qed.

Lemma compute_errors_zero_123en (fr : fakerate) (c : nat) :
  0 < en fr -> _123en fr = 0 ->
  compute_errors fr c = Raised ZeroDivisionError.
Proof.
  intros Hen Hz123. unfold compute_errors.
  destruct (Req_dec_T (en fr) 0) as [Hz | _]; [lra |].
  unfold bind. rewrite get_rel_counting_err_pos by assumption.
  rewrite Hz123, get_rel_counting_err_zero. reflexivity.
Qed.

(** The quotient of [compute_errors] on a region with events in both
    enriched samples. *)
Lemma qcd_fraction_pos (fr : fakerate) (c c' : nat) :
  0 < en fr ->
  exists dQ dE,
    div (mul (number (_123 fr))
             {| nominal_value := 1;
                derivatives := [(counting_variable (S c) (_123en fr), 1)] |})
        (mul (number (en fr))
             {| nominal_value := 1;
                derivatives := [(counting_variable c (en fr), 1)] |}) c'
    = Returned ({| nominal_value := _123 fr * 1 / (en fr * 1);
                   derivatives :=
                     [(counting_variable (S c) (_123en fr), dQ);
                      (counting_variable c (en fr), dE)] |}, c')
    /\ dQ = _123 fr / en fr
    /\ dE = - (_123 fr / en fr).
Proof.
  intros Hen. unfold div, bind, float_div. cbn [nominal_value mul number].
  destruct (Req_dec_T (en fr * 1) 0) as [Hz | _]; [lra |].
  unfold ret, counting_variable. run_dict.
  eexists. eexists. split; [reflexivity |]. split; field; lra.
Qed.

Lemma compute_errors_pos (fr : fakerate) (c : nat) :
  0 < en fr -> 0 < _123en fr ->
  exists n dE dQ,
    compute_errors fr c
    = Returned ({| nominal_value := n;
                   derivatives :=
                     [(counting_variable c (en fr), dE);
                      (counting_variable (S c) (_123en fr), dQ)] |},
                S (S c))
    /\ n = mix fr
    /\ dE = ewk_s fr
    /\ dQ = (qcd_s fr - ewk_s fr) * (_123 fr / en fr).
Proof.
  intros Hen H123. unfold compute_errors.
  destruct (Req_dec_T (en fr) 0) as [Hz | _]; [lra |].
  unfold bind at 1. rewrite get_rel_counting_err_pos by assumption.
  unfold bind at 1. rewrite get_rel_counting_err_pos by assumption.
  unfold bind at 1. unfold div, bind, float_div. cbn [nominal_value mul number].
  destruct (Req_dec_T (en fr * 1) 0) as [Hz | _]; [lra |].
  unfold ret, counting_variable. run_dict.
  eexists. eexists. eexists. split; [reflexivity |].
  unfold mix. repeat split; field; lra.
Qed.

Lemma counting_variable_contribution (d n : R) (id : nat) :
  0 < n ->
  Rabs (d * var_std_dev (counting_variable id n)) ^ 2 = d ^ 2 / n.
Proof.
  intros Hn. rewrite pow2_abs. cbn [counting_variable var_std_dev].
  replace ((d * (sqrt n / n)) ^ 2) with (d ^ 2 * (sqrt n) ^ 2 / n ^ 2)
    by (field; lra).
  rewrite pow2_sqrt by lra. field. lra.
Qed.

Lemma allocated_one (v : variable) (d n : R) (c : nat) :
  var_id v = c ->
  allocated c (S c) {| nominal_value := n; derivatives := [(v, d)] |}.
Proof.
  intros Hv. unfold allocated. cbn [derivatives ids map fst]. rewrite Hv.
  split.
  - constructor; [intros [] | constructor].
  - constructor; [lia | constructor].
Qed.

Lemma allocated_two (v w : variable) (dv dw n : R) (c : nat) :
  var_id v = c -> var_id w = S c ->
  allocated c (S (S c))
            {| nominal_value := n; derivatives := [(v, dv); (w, dw)] |}.
Proof.
  intros Hv Hw. unfold allocated. cbn [derivatives ids map fst].
  rewrite Hv, Hw. split.
  - constructor; [| constructor; [intros [] | constructor]].
    intros [H | []]. lia.
  - repeat constructor; lia.
Qed.

Lemma compute_errors_defined (fr : fakerate) (c : nat) :
  region_defined fr ->
  exists u c',
    compute_errors fr c = Returned (u, c')
    /\ allocated c c' u
    /\ (c <= c')%nat
    /\ nominal_value u = central_estimate fr
    /\ variance u = region_variance fr.
Proof.
  intros [Hz | [Hen H123]].
  - eexists. eexists. split; [apply compute_errors_zero; exact Hz |].
    unfold central_estimate, region_variance.
    destruct (Req_dec_T (en fr) 0) as [_ | Hnz]; [| lra].
    split; [apply allocated_one; reflexivity |].
    split; [lia |]. split; [reflexivity |].
    unfold variance, error_components.
    cbn [derivatives map fold_left fst snd var_std_dev].
    rewrite pow2_abs. ring.
  - destruct (compute_errors_pos fr c Hen H123)
      as (n & dE & dQ & Hrun & Hn & HdE & HdQ).
    eexists. eexists. split; [exact Hrun |].
    unfold central_estimate, region_variance.
    destruct (Req_dec_T (en fr) 0) as [Hz | _]; [lra |].
    split; [apply allocated_two; reflexivity |].
    split; [lia |]. split; [exact Hn |].
    unfold variance, error_components.
    cbn [derivatives map fold_left fst snd].
    rewrite !counting_variable_contribution by assumption.
    subst dE dQ. ring.
Qed.

Lemma double_est_zero (fr12s : R) (c : nat) :
  double_est fr12s 0 c = Returned (number 0, c).
Proof.
  unfold double_est.
  destruct (Req_dec_T 0 0) as [_ | Hnz]; [reflexivity | lra].
Qed.

Lemma double_est_pos (fr12s fr12en : R) (c : nat) :
  0 < fr12en ->
  double_est fr12s fr12en c
  = Returned ({| nominal_value := fr12s * 1;
                 derivatives :=
                   [(counting_variable c fr12en, 0 + fr12s * 1)] |}, S c).
Proof.
  intros Hn. unfold double_est.
  destruct (Req_dec_T fr12en 0) as [Hz | _]; [lra |].
  unfold bind. rewrite get_rel_counting_err_pos by assumption.
  unfold ret. run_dict. reflexivity.
Qed.

Lemma double_est_neg (fr12s fr12en : R) (c : nat) :
  fr12en < 0 -> double_est fr12s fr12en c = Raised ValueError.
Proof.
  intros Hn. unfold double_est.
  destruct (Req_dec_T fr12en 0) as [Hz | _]; [lra |].
  unfold bind. rewrite get_rel_counting_err_neg by assumption. reflexivity.
Qed.

Lemma double_est_defined (fr12s fr12en : R) (c : nat) :
  0 <= fr12en ->
  exists d c',
    double_est fr12s fr12en c = Returned (d, c')
    /\ allocated c c' d
    /\ (c <= c')%nat
    /\ nominal_value d = double_central fr12s fr12en
    /\ variance d = double_variance fr12s fr12en.
Proof.
  intros [Hpos | Hz].
  - eexists. eexists. split; [apply double_est_pos; exact Hpos |].
    unfold double_central, double_variance.
    destruct (Req_dec_T fr12en 0) as [Hz | _]; [lra |].
    split; [apply allocated_one; reflexivity |].
    split; [lia |]. split; [cbn [nominal_value]; ring |].
    unfold variance, error_components.
    cbn [derivatives map fold_left fst snd].
    rewrite counting_variable_contribution by assumption. field. lra.
  - subst fr12en. eexists. eexists. split; [apply double_est_zero |].
    unfold double_central, double_variance.
    destruct (Req_dec_T 0 0) as [_ | Hnz]; [| lra].
    split; [split; [constructor | constructor] |].
    split; [lia |]. split; reflexivity.
Qed.

End Outcomes.

(** ** The combination of the three terms *)

Section Combination.

Lemma estimate_fake_sum_steps (fr1 fr2 : fakerate) (fr12s fr12en : R)
      (c c1 c2 c3 : nat) (f1 f2 d : AffineScalarFunc) :
  compute_errors fr1 c = Returned (f1, c1) ->
  compute_errors fr2 c1 = Returned (f2, c2) ->
  double_est fr12s fr12en c2 = Returned (d, c3) ->
  estimate_fake_sum fr1 fr2 fr12s fr12en c
  = Returned (sub (add f1 f2) d, c3).
Proof.
  intros H1 H2 Hd. unfold estimate_fake_sum, bind.
  rewrite H1, H2, Hd. reflexivity.
Qed.

Lemma allocated_apart (lo mid hi : nat) (x y : AffineScalarFunc) :
  allocated lo mid x -> allocated mid hi y ->
  forall i, In i (ids (derivatives y)) -> ~ In i (ids (derivatives x)).
Proof.
  intros [_ Hx] [_ Hy] i Hiy Hix.
  rewrite Forall_forall in Hx, Hy.
  specialize (Hx i Hix). specialize (Hy i Hiy). lia.
Qed.

Lemma allocated_add (lo mid hi : nat) (x y : AffineScalarFunc) :
  (lo <= mid)%nat -> (mid <= hi)%nat ->
  allocated lo mid x -> allocated mid hi y ->
  allocated lo hi (add x y).
Proof.
  intros Hlo Hhi Hx Hy.
  pose proof (allocated_apart lo mid hi x y Hx Hy) as Hxy.
  destruct Hx as [Hndx Hx], Hy as [Hndy Hy].
  unfold allocated. rewrite ids_add by assumption. split.
  - apply NoDup_app; [exact Hndx | exact Hndy |].
    intros i Hix Hiy. exact (Hxy i Hiy Hix).
  - apply Forall_app. split.
    + eapply Forall_impl; [| exact Hx]. cbn. intros i Hi. lia.
    + eapply Forall_impl; [| exact Hy]. cbn. intros i Hi. lia.
Qed.

Lemma variance_total (c c1 c2 c3 : nat) (f1 f2 d : AffineScalarFunc) :
  (c <= c1)%nat -> (c1 <= c2)%nat ->
  allocated c c1 f1 -> allocated c1 c2 f2 -> allocated c2 c3 d ->
  variance (sub (add f1 f2) d) = variance f1 + variance f2 + variance d.
Proof.
  intros Hc1 Hc2 H1 H2 Hd.
  pose proof (allocated_add c c1 c2 f1 f2 Hc1 Hc2 H1 H2) as H12.
  rewrite variance_sub.
  - rewrite variance_add; [reflexivity | apply H1 | apply H2 |].
    exact (allocated_apart c c1 c2 f1 f2 H1 H2).
  - apply H12.
  - apply Hd.
  - exact (allocated_apart c c2 c3 (add f1 f2) d H12 Hd).
Qed.

Lemma estimate_fake_sum_defined (fr1 fr2 : fakerate) (fr12s fr12en : R)
      (c : nat) :
  region_defined fr1 -> region_defined fr2 -> 0 <= fr12en ->
  exists f1 c1 f2 c2 d c3,
    compute_errors fr1 c = Returned (f1, c1)
    /\ compute_errors fr2 c1 = Returned (f2, c2)
    /\ double_est fr12s fr12en c2 = Returned (d, c3)
    /\ estimate_fake_sum fr1 fr2 fr12s fr12en c
       = Returned (sub (add f1 f2) d, c3)
    /\ variance (sub (add f1 f2) d) = variance f1 + variance f2 + variance d
    /\ (nominal_value f1 = central_estimate fr1
        /\ variance f1 = region_variance fr1)
    /\ (nominal_value f2 = central_estimate fr2
        /\ variance f2 = region_variance fr2)
    /\ (nominal_value d = double_central fr12s fr12en
        /\ variance d = double_variance fr12s fr12en).
Proof.
  intros Hr1 Hr2 Hn.
  destruct (compute_errors_defined fr1 c Hr1)
    as (f1 & c1 & Hf1 & Ha1 & Hc1 & Hn1 & Hv1).
  destruct (compute_errors_defined fr2 c1 Hr2)
    as (f2 & c2 & Hf2 & Ha2 & Hc2 & Hn2 & Hv2).
  destruct (double_est_defined fr12s fr12en c2 Hn)
    as (d & c3 & Hd & Had & Hc3 & Hnd & Hvd).
  exists f1, c1, f2, c2, d, c3.
  split; [exact Hf1 |]. split; [exact Hf2 |]. split; [exact Hd |].
  split; [exact (estimate_fake_sum_steps _ _ _ _ _ _ _ _ _ _ _ Hf1 Hf2 Hd) |].
  split; [exact (variance_total c c1 c2 c3 f1 f2 d Hc1 Hc2 Ha1 Ha2 Had) |].
  repeat split; assumption.
Qed.

Lemma estimate_raises_first (fr1 fr2 : fakerate) (fr12s fr12en : R)
      (c : nat) (e : exception) :
  compute_errors fr1 c = Raised e ->
  estimate_fake_sum fr1 fr2 fr12s fr12en c = Raised e.
Proof.
  intros H1. unfold estimate_fake_sum, bind. rewrite H1. reflexivity.
Qed.

Lemma estimate_raises_second (fr1 fr2 : fakerate) (fr12s fr12en : R)
      (c c1 : nat) (f1 : AffineScalarFunc) (e : exception) :
  compute_errors fr1 c = Returned (f1, c1) ->
  compute_errors fr2 c1 = Raised e ->
  estimate_fake_sum fr1 fr2 fr12s fr12en c = Raised e.
Proof.
  intros H1 H2. unfold estimate_fake_sum, bind. rewrite H1, H2. reflexivity.
Qed.

Lemma estimate_raises_third (fr1 fr2 : fakerate) (fr12s fr12en : R)
      (c c1 c2 : nat) (f1 f2 : AffineScalarFunc) (e : exception) :
  compute_errors fr1 c = Returned (f1, c1) ->
  compute_errors fr2 c1 = Returned (f2, c2) ->
  double_est fr12s fr12en c2 = Raised e ->
  estimate_fake_sum fr1 fr2 fr12s fr12en c = Raised e.
Proof.
  intros H1 H2 Hd. unfold estimate_fake_sum, bind.
  rewrite H1, H2, Hd. reflexivity.
Qed.

Lemma nonnegative_counts_cases (fr : fakerate) :
  0 <= en fr -> 0 <= _123en fr ->
  region_defined fr \/ (0 < en fr /\ _123en fr = 0).
Proof.
  intros [Hen | Hen] [H123 | H123].
  - left. right. split; assumption.
  - right. split; [assumption | symmetry; assumption].
  - left. left. symmetry. assumption.
  - left. left. symmetry. assumption.
Qed.

Lemma valid_counts_outcome (fr1 fr2 : fakerate) (fr12s fr12en : R)
      (c : nat) :
  0 <= en fr1 -> 0 <= _123en fr1 -> 0 <= en fr2 -> 0 <= _123en fr2 ->
  (region_defined fr1 /\ region_defined fr2)
  \/ (estimate_fake_sum fr1 fr2 fr12s fr12en c = Raised ZeroDivisionError
      /\ estimate_fake_sum fr2 fr1 fr12s fr12en c
         = Raised ZeroDivisionError).
Proof.
  intros Hen1 H1231 Hen2 H1232.
  destruct (nonnegative_counts_cases fr1 Hen1 H1231) as [Hr1 | [Hp1 Hz1]];
    destruct (nonnegative_counts_cases fr2 Hen2 H1232) as [Hr2 | [Hp2 Hz2]].
  - left. split; assumption.
  - right. split.
    + destruct (compute_errors_defined fr1 c Hr1) as (f1 & c1 & Hf1 & _).
      exact (estimate_raises_second fr1 fr2 fr12s fr12en c c1 f1
               ZeroDivisionError Hf1
               (compute_errors_zero_123en fr2 c1 Hp2 Hz2)).
    + exact (estimate_raises_first fr2 fr1 fr12s fr12en c ZeroDivisionError
               (compute_errors_zero_123en fr2 c Hp2 Hz2)).
  - right. split.
    + exact (estimate_raises_first fr1 fr2 fr12s fr12en c ZeroDivisionError
               (compute_errors_zero_123en fr1 c Hp1 Hz1)).
    + destruct (compute_errors_defined fr2 c Hr2) as (f2 & c1 & Hf2 & _).
      exact (estimate_raises_second fr2 fr1 fr12s fr12en c c1 f2
               ZeroDivisionError Hf2
               (compute_errors_zero_123en fr1 c1 Hp1 Hz1)).
  - right. split.
    + exact (estimate_raises_first fr1 fr2 fr12s fr12en c ZeroDivisionError
               (compute_errors_zero_123en fr1 c Hp1 Hz1)).
    + exact (estimate_raises_first fr2 fr1 fr12s fr12en c ZeroDivisionError
               (compute_errors_zero_123en fr2 c Hp2 Hz2)).
Qed.

Lemma scenario_region1_valid : valid_region scenario_region1.
Proof. unfold valid_region. cbn. repeat split; lra. Qed.

Lemma empty_region_valid : valid_region empty_region.
Proof. unfold valid_region. cbn. repeat split; lra. Qed.

Lemma empty_region_defined : region_defined empty_region.
Proof. left. reflexivity. Qed.

Lemma scenario_region1_defined : region_defined scenario_region1.
Proof. right. cbn [scenario_region1 en _123en]. split; lra. Qed.

End Combination.

(** ** The statements of the specification *)

(** C3. On an input of the data model, what [estimate_fake_sum] returns
    has for nominal value the region-1 estimate plus the region-2 estimate
    minus the double-object estimate, and for standard deviation the
    quadrature sum of their three standard deviations: the three terms are
    combined as uncorrelated quantities.  The only other outcome on such an
    input is the division by zero of a region with events whose triple-fake
    sample is empty. *)
Theorem estimate_fake_sum_combines_in_quadrature
        (fr1 fr2 : fakerate) (fr12s fr12en : R) (c : nat) :
  valid_region fr1 -> valid_region fr2 -> 0 <= fr12s -> 0 <= fr12en ->
  match result (estimate_fake_sum fr1 fr2 fr12s fr12en c) with
  | Returned total =>
      exists f1 c1 f2 c2 d c3,
        compute_errors fr1 c = Returned (f1, c1)
        /\ compute_errors fr2 c1 = Returned (f2, c2)
        /\ double_est fr12s fr12en c2 = Returned (d, c3)
        /\ nominal_value total
           = nominal_value f1 + nominal_value f2 - nominal_value d
        /\ std_dev total
           = sqrt (std_dev f1 ^ 2 + std_dev f2 ^ 2 + std_dev d ^ 2)
  | Raised e =>
      e = ZeroDivisionError
      /\ ((0 < en fr1 /\ _123en fr1 = 0) \/ (0 < en fr2 /\ _123en fr2 = 0))
  end.
Proof.
  intros (Hen1 & _ & _ & _ & H1231) (Hen2 & _ & _ & _ & H1232) _ Hn.
  destruct (nonnegative_counts_cases fr1 Hen1 H1231) as [Hr1 | Hdeg1].
  - destruct (nonnegative_counts_cases fr2 Hen2 H1232) as [Hr2 | Hdeg2].
    + destruct (estimate_fake_sum_defined fr1 fr2 fr12s fr12en c Hr1 Hr2 Hn)
        as (f1 & c1 & f2 & c2 & d & c3 & Hf1 & Hf2 & Hd & Hrun & Hvar & _).
      rewrite Hrun. cbn [result].
      exists f1, c1, f2, c2, d, c3.
      split; [exact Hf1 |]. split; [exact Hf2 |]. split; [exact Hd |].
      split; [reflexivity |].
      rewrite !std_dev_sqr, std_dev_variance, Hvar. reflexivity.
    + destruct (compute_errors_defined fr1 c Hr1) as (f1 & c1 & Hf1 & _).
      rewrite (estimate_raises_second fr1 fr2 fr12s fr12en c c1 f1
                 ZeroDivisionError Hf1
                 (compute_errors_zero_123en fr2 c1
                    (proj1 Hdeg2) (proj2 Hdeg2))).
      cbn [result]. split; [reflexivity | right; exact Hdeg2].
  - rewrite (estimate_raises_first fr1 fr2 fr12s fr12en c ZeroDivisionError
               (compute_errors_zero_123en fr1 c
                  (proj1 Hdeg1) (proj2 Hdeg1))).
    cbn [result]. split; [reflexivity | left; exact Hdeg1].
Qed.

Lemma estimate_fake_sum_combines_in_quadrature_witness :
  exists total f1 c1 f2 c2 d c3,
    result (estimate_fake_sum scenario_region1 empty_region 3 4 0%nat)
    = Returned total
    /\ compute_errors scenario_region1 0%nat = Returned (f1, c1)
    /\ compute_errors empty_region c1 = Returned (f2, c2)
    /\ double_est 3 4 c2 = Returned (d, c3)
    /\ nominal_value total
       = nominal_value f1 + nominal_value f2 - nominal_value d
    /\ std_dev total
       = sqrt (std_dev f1 ^ 2 + std_dev f2 ^ 2 + std_dev d ^ 2).
Proof.
  assert (H3 : 0 <= 3) by lra. assert (H4 : 0 <= 4) by lra.
  pose proof (estimate_fake_sum_combines_in_quadrature
                scenario_region1 empty_region 3 4 0%nat
                scenario_region1_valid empty_region_valid H3 H4) as Hsum.
  destruct (estimate_fake_sum_defined scenario_region1 empty_region 3 4 0%nat
              scenario_region1_defined empty_region_defined H4)
    as (g1 & k1 & g2 & k2 & e & k3 & _ & _ & _ & Hrun & _).
  rewrite Hrun in Hsum. cbn [result] in Hsum.
  destruct Hsum as (f1 & c1 & f2 & c2 & d & c3 & Hsum).
  exists (sub (add g1 g2) e), f1, c1, f2, c2, d, c3.
  split; [rewrite Hrun; reflexivity | exact Hsum].
Defined.

(** C9. On an input of the data model (no count and no estimate is
    negative) [estimate_fake_sum] either returns a quantity whose standard
    deviation is non-negative, or stops on a division by zero and returns
    nothing. *)
Theorem standard_deviation_nonnegative
        (fr1 fr2 : fakerate) (fr12s fr12en : R) (c : nat) :
  valid_region fr1 -> valid_region fr2 -> 0 <= fr12s -> 0 <= fr12en ->
  match result (estimate_fake_sum fr1 fr2 fr12s fr12en c) with
  | Returned total => 0 <= std_dev total
  | Raised e => e = ZeroDivisionError
  end.
Proof.
  intros (Hen1 & _ & _ & _ & H1231) (Hen2 & _ & _ & _ & H1232) _ Hn.
  destruct (nonnegative_counts_cases fr1 Hen1 H1231) as [Hr1 | [Hp1 Hz1]].
  - destruct (nonnegative_counts_cases fr2 Hen2 H1232) as [Hr2 | [Hp2 Hz2]].
    + destruct (estimate_fake_sum_defined fr1 fr2 fr12s fr12en c Hr1 Hr2 Hn)
        as (f1 & c1 & f2 & c2 & d & c3 & _ & _ & _ & Hrun & _).
      rewrite Hrun. cbn [result]. apply std_dev_nonneg.
    + destruct (compute_errors_defined fr1 c Hr1) as (f1 & c1 & Hf1 & _).
      rewrite (estimate_raises_second fr1 fr2 fr12s fr12en c c1 f1
                 ZeroDivisionError Hf1
                 (compute_errors_zero_123en fr2 c1 Hp2 Hz2)).
      reflexivity.
  - rewrite (estimate_raises_first fr1 fr2 fr12s fr12en c ZeroDivisionError
               (compute_errors_zero_123en fr1 c Hp1 Hz1)).
    reflexivity.
Qed.

Lemma standard_deviation_nonnegative_witness :
  exists total,
    result (estimate_fake_sum scenario_region1 empty_region 3 4 0%nat)
    = Returned total
    /\ 0 <= std_dev total.
Proof.
  assert (H3 : 0 <= 3) by lra. assert (H4 : 0 <= 4) by lra.
  pose proof (standard_deviation_nonnegative
                scenario_region1 empty_region 3 4 0%nat
                scenario_region1_valid empty_region_valid H3 H4) as Hstd.
  destruct (estimate_fake_sum_defined scenario_region1 empty_region 3 4 0%nat
              scenario_region1_defined empty_region_defined H4)
    as (g1 & k1 & g2 & k2 & e & k3 & _ & _ & _ & Hrun & _).
  rewrite Hrun in Hstd. cbn [result] in Hstd.
  exists (sub (add g1 g2) e).
  split; [rewrite Hrun; reflexivity | exact Hstd].
Defined.




(** C5. A region whose ['en'] is zero contributes a quantity with nominal
    value 0 and standard deviation 0, without any error; and when both
    regions have ['en'] zero and the doubly enriched count is zero,
    [estimate_fake_sum] returns nominal value 0 with standard deviation
    0. *)
Theorem zero_enriched_count_contributes_zero
        (fr fr1 fr2 : fakerate) (fr12s : R) (c : nat) :
  en fr = 0 ->
  (exists u, result (compute_errors fr c) = Returned u
             /\ nominal_value u = 0 /\ std_dev u = 0)
  /\ (en fr1 = 0 -> en fr2 = 0 ->
      exists total,
        result (estimate_fake_sum fr1 fr2 fr12s 0 c) = Returned total
        /\ nominal_value total = 0 /\ std_dev total = 0).
Proof.
  intros Hz. split.
  - destruct (compute_errors_defined fr c (or_introl Hz))
      as (u & c' & Hu & _ & _ & Hn & Hv).
    exists u. rewrite Hu. split; [reflexivity |].
    unfold central_estimate in Hn. unfold region_variance in Hv.
    destruct (Req_dec_T (en fr) 0) as [_ | Hnz]; [| lra].
    split; [exact Hn |]. rewrite std_dev_variance, Hv. apply sqrt_0.
  - intros Hz1 Hz2.
    destruct (estimate_fake_sum_defined fr1 fr2 fr12s 0 c
                (or_introl Hz1) (or_introl Hz2) (Rle_refl 0))
      as (f1 & c1 & f2 & c2 & d & c3 & _ & _ & _ & Hrun & Hvar
          & [Hn1 Hv1] & [Hn2 Hv2] & [Hnd Hvd]).
    exists (sub (add f1 f2) d). rewrite Hrun. split; [reflexivity |].
    unfold central_estimate in Hn1, Hn2.
    unfold region_variance in Hv1, Hv2.
    unfold double_central in Hnd. unfold double_variance in Hvd.
    destruct (Req_dec_T (en fr1) 0) as [_ | Hnz]; [| lra].
    destruct (Req_dec_T (en fr2) 0) as [_ | Hnz]; [| lra].
    destruct (Req_dec_T 0 0) as [_ | Hnz]; [| lra].
    split.
    + cbn [sub add nominal_value]. rewrite Hn1, Hn2, Hnd. ring.
    + rewrite std_dev_variance, Hvar, Hv1, Hv2, Hvd.
      replace (0 + 0 + 0) with 0 by ring. apply sqrt_0.
Qed.

Lemma zero_enriched_count_contributes_zero_witness :
  (exists u, result (compute_errors empty_region 0%nat) = Returned u
             /\ nominal_value u = 0 /\ std_dev u = 0)
  /\ exists total,
       result (estimate_fake_sum empty_region empty_region 7 0 0%nat)
       = Returned total
       /\ nominal_value total = 0 /\ std_dev total = 0.
Proof.
  destruct (zero_enriched_count_contributes_zero
              empty_region empty_region empty_region 7 0%nat eq_refl)
    as [Hregion Hall].
  split; [exact Hregion | exact (Hall eq_refl eq_refl)].
Defined.

(** The intermediate quantities of [compute_errors] on a region with events
    in both enriched samples. *)
Lemma compute_errors_steps (fr : fakerate) (c : nat) :
  0 < en fr -> 0 < _123en fr ->
  exists enriched_region_error qcd_in_enriched_region_error qcd_fraction
         est_yield,
    get_rel_counting_err (en fr) c = Returned (enriched_region_error, S c)
    /\ get_rel_counting_err (_123en fr) (S c)
       = Returned (qcd_in_enriched_region_error, S (S c))
    /\ div (mul (number (_123 fr)) qcd_in_enriched_region_error)
           (mul (number (en fr)) enriched_region_error) (S (S c))
       = Returned (qcd_fraction, S (S c))
    /\ compute_errors fr c = Returned (est_yield, S (S c))
    /\ est_yield
       = mul enriched_region_error
             (add (mul (sub (number 1) qcd_fraction) (number (ewk_s fr)))
                  (mul qcd_fraction (number (qcd_s fr))))
    /\ nominal_value qcd_fraction = _123 fr / en fr
    /\ variance qcd_fraction
       = (_123 fr / en fr) ^ 2 * (1 / _123en fr + 1 / en fr)
    /\ nominal_value est_yield = central_estimate fr
    /\ variance est_yield = region_variance fr.
Proof.
  intros Hen H123.
  destruct (qcd_fraction_pos fr c (S (S c)) Hen)
    as (dQ & dE & Hdiv & HdQ & HdE).
  destruct (compute_errors_defined fr c (or_intror (conj Hen H123)))
    as (u & c' & Hu & _ & _ & Hn & Hv).
  assert (Hrun : compute_errors fr c
                 = Returned
                     (mul {| nominal_value := 1;
                             derivatives :=
                               [(counting_variable c (en fr), 1)] |}
                          (add (mul (sub (number 1)
                                         {| nominal_value :=
                                              _123 fr * 1 / (en fr * 1);
                                            derivatives :=
                                              [(counting_variable
                                                  (S c) (_123en fr), dQ);
                                               (counting_variable
                                                  c (en fr), dE)] |})
                                    (number (ewk_s fr)))
                               (mul {| nominal_value :=
                                         _123 fr * 1 / (en fr * 1);
                                       derivatives :=
                                         [(counting_variable
                                             (S c) (_123en fr), dQ);
                                          (counting_variable
                                             c (en fr), dE)] |}
                                    (number (qcd_s fr)))), S (S c))).
  { unfold compute_errors.
    destruct (Req_dec_T (en fr) 0) as [Hz | _]; [lra |].
    unfold bind at 1. rewrite get_rel_counting_err_pos by assumption.
    unfold bind at 1. rewrite get_rel_counting_err_pos by assumption.
    unfold bind at 1. rewrite Hdiv. reflexivity. }
  rewrite Hrun in Hu. injection Hu as Hu _. subst u.
  eexists. eexists. eexists. eexists.
  split; [apply get_rel_counting_err_pos; exact Hen |].
  split; [apply get_rel_counting_err_pos; exact H123 |].
  split; [exact Hdiv |].
  split; [exact Hrun |].
  split; [reflexivity |].
  split; [cbn [nominal_value]; field; lra |].
  split; [| split; [exact Hn | exact Hv]].
  unfold variance, error_components. cbn [derivatives map fold_left fst snd].
  rewrite !counting_variable_contribution by assumption.
  subst dQ dE. field. lra.
Qed.

(** C2. On a region of the data model with a positive ['en'], the
    quantity [compute_errors] returns is the region's relative counting
    uncertainty times the mix
    [(1 - qcd_fraction) * ewk_s + qcd_fraction * qcd_s], where
    [qcd_fraction] is ['123'] times the relative counting uncertainty of
    ['123en'], over ['en'] times the relative counting uncertainty of
    ['en'].  The fraction has central value ['123'/'en'] and its relative
    error is the quadrature sum of the two relative counting errors; the
    estimate has the central value of the mix and the standard deviation
    that first-order propagation gives for the two counts.  Nothing is
    returned when ['123en'] is zero, where its relative counting
    uncertainty does not exist. *)
Theorem region_estimate_is_weighted_mix (fr : fakerate) (c : nat) :
  0 < en fr -> 0 <= _123en fr ->
  match result (compute_errors fr c) with
  | Returned est_yield =>
      exists enriched_region_error qcd_in_enriched_region_error
             qcd_fraction,
        result (get_rel_counting_err (en fr) c)
        = Returned enriched_region_error
        /\ result (get_rel_counting_err (_123en fr) (S c))
           = Returned qcd_in_enriched_region_error
        /\ result (div (mul (number (_123 fr)) qcd_in_enriched_region_error)
                       (mul (number (en fr)) enriched_region_error)
                       (S (S c)))
           = Returned qcd_fraction
        /\ est_yield
           = mul enriched_region_error
                 (add (mul (sub (number 1) qcd_fraction)
                           (number (ewk_s fr)))
                      (mul qcd_fraction (number (qcd_s fr))))
        /\ nominal_value qcd_fraction = _123 fr / en fr
        /\ std_dev qcd_fraction
           = Rabs (nominal_value qcd_fraction)
             * sqrt ((sqrt (_123en fr) / _123en fr) ^ 2
                     + (sqrt (en fr) / en fr) ^ 2)
        /\ nominal_value est_yield
           = (1 - nominal_value qcd_fraction) * ewk_s fr
             + nominal_value qcd_fraction * qcd_s fr
        /\ std_dev est_yield
           = sqrt ((ewk_s fr) ^ 2 / en fr
                   + ((qcd_s fr - ewk_s fr) * nominal_value qcd_fraction) ^ 2
                     / _123en fr)
  | Raised e => e = ZeroDivisionError /\ _123en fr = 0
  end.
Proof.
  intros Hen [H123 | Hz123].
  2: { rewrite (compute_errors_zero_123en fr c Hen (eq_sym Hz123)).
       cbn [result]. split; [reflexivity | symmetry; exact Hz123]. }
  destruct (compute_errors_steps fr c Hen H123)
    as (E & Q & qf & est & HE & HQ & Hqf & Hest & Heq & Hnq & Hvq & Hn & Hv).
  rewrite Hest. cbn [result].
  exists E, Q, qf.
  rewrite HE, HQ, Hqf. cbn [result].
  unfold central_estimate, mix in Hn. unfold region_variance in Hv.
  destruct (Req_dec_T (en fr) 0) as [Hz | _]; [lra |].
  repeat (split; [first [reflexivity | assumption] |]).
  split; [| split].
  - rewrite std_dev_variance, Hvq, Hnq.
    apply sqrt_lem_1.
    + apply Rmult_le_pos; [apply pow2_ge_0 |].
      apply Rplus_le_le_0_compat; apply Rlt_le, Rdiv_lt_0_compat; lra.
    + apply Rmult_le_pos; [apply Rabs_pos | apply sqrt_pos].
    + replace (Rabs (_123 fr / en fr)
               * sqrt ((sqrt (_123en fr) / _123en fr) ^ 2
                       + (sqrt (en fr) / en fr) ^ 2)
               * (Rabs (_123 fr / en fr)
                  * sqrt ((sqrt (_123en fr) / _123en fr) ^ 2
                          + (sqrt (en fr) / en fr) ^ 2)))
        with (Rabs (_123 fr / en fr) ^ 2
              * (sqrt ((sqrt (_123en fr) / _123en fr) ^ 2
                       + (sqrt (en fr) / en fr) ^ 2)) ^ 2) by ring.
      rewrite pow2_abs, pow2_sqrt.
      * replace ((sqrt (_123en fr) / _123en fr) ^ 2)
          with (sqrt (_123en fr) ^ 2 / (_123en fr) ^ 2) by (field; lra).
        replace ((sqrt (en fr) / en fr) ^ 2)
          with (sqrt (en fr) ^ 2 / (en fr) ^ 2) by (field; lra).
        rewrite !pow2_sqrt by lra. field. lra.
      * apply Rplus_le_le_0_compat; apply pow2_ge_0.
  - rewrite Hn, Hnq. reflexivity.
  - rewrite std_dev_variance, Hv, Hnq. reflexivity.
Qed.

Lemma region_estimate_is_weighted_mix_witness :
  exists est_yield,
    result (compute_errors scenario_region1 0%nat) = Returned est_yield
    /\ nominal_value est_yield = (1 - 5 / 100) * 10 + 5 / 100 * 20.
Proof.
  assert (Hen : 0 < en scenario_region1) by (cbn [scenario_region1 en]; lra).
  assert (H123 : 0 <= _123en scenario_region1)
    by (cbn [scenario_region1 _123en]; lra).
  pose proof (region_estimate_is_weighted_mix scenario_region1 0%nat
                Hen H123) as Hmix.
  destruct (compute_errors_defined scenario_region1 0%nat
              scenario_region1_defined) as (u & c' & Hu & _).
  rewrite Hu in Hmix. cbn [result] in Hmix.
  destruct Hmix as (E & Q & qf & _ & _ & _ & _ & Hnq & _ & Hn & _).
  exists u. rewrite Hu. split; [reflexivity |].
  rewrite Hn, Hnq. reflexivity.
Defined.

(** C6. The double-object term is [fr12s] times the relative counting
    uncertainty of [fr12en]: its central value is [fr12s] and its standard
    deviation [|fr12s| * sqrt fr12en / fr12en]; when [fr12en] is zero it is
    the number 0, with no uncertainty. *)
Theorem double_object_contribution (fr12s fr12en : R) (c : nat) :
  0 <= fr12en ->
  exists d,
    result (double_est fr12s fr12en c) = Returned d
    /\ (fr12en = 0 -> d = number 0 /\ nominal_value d = 0 /\ std_dev d = 0)
    /\ (0 < fr12en ->
        exists rel,
          result (get_rel_counting_err fr12en c) = Returned rel
          /\ d = mul (number fr12s) rel
          /\ nominal_value d = fr12s
          /\ std_dev d = Rabs fr12s * (sqrt fr12en / fr12en)).
Proof.
  intros [Hpos | Hz].
  - eexists. rewrite double_est_pos by exact Hpos. cbn [result].
    split; [reflexivity |]. split; [intros Hz; lra |].
    intros _. eexists. rewrite get_rel_counting_err_pos by exact Hpos.
    cbn [result]. split; [reflexivity |].
    split; [run_dict; reflexivity |].
    split; [cbn [nominal_value]; ring |].
    rewrite std_dev_variance. unfold variance, error_components.
    cbn [derivatives map fold_left fst snd].
    rewrite counting_variable_contribution by assumption.
    apply sqrt_lem_1.
    + apply Rplus_le_le_0_compat; [lra |].
      apply Rmult_le_pos; [apply pow2_ge_0 |].
      apply Rlt_le, Rinv_0_lt_compat. exact Hpos.
    + apply Rmult_le_pos; [apply Rabs_pos |].
      apply Rmult_le_pos; [apply sqrt_pos |].
      apply Rlt_le, Rinv_0_lt_compat. exact Hpos.
    + replace (Rabs fr12s * (sqrt fr12en / fr12en)
               * (Rabs fr12s * (sqrt fr12en / fr12en)))
        with (Rabs fr12s ^ 2 * sqrt fr12en ^ 2 / fr12en ^ 2)
        by (field; lra).
      rewrite pow2_abs, pow2_sqrt by lra. field. lra.
  - subst fr12en. exists (number 0). rewrite double_est_zero. cbn [result].
    split; [reflexivity |]. split; [| intros H; lra].
    intros _. split; [reflexivity |]. split; [reflexivity |].
    rewrite std_dev_variance. unfold variance. cbn. apply sqrt_0.
Qed.

Lemma double_object_contribution_witness :
  (exists d, result (double_est 3 4 0%nat) = Returned d)
  /\ (exists d, result (double_est 3 0 0%nat) = Returned d).
Proof.
  split.
  - destruct (double_object_contribution 3 4 0%nat) as (d & Hd & _);
      [lra | exists d; exact Hd].
  - destruct (double_object_contribution 3 0 0%nat) as (d & Hd & _);
      [lra | exists d; exact Hd].
Defined.

(** What the bin loop stores for the quantity the estimator returned. *)
Lemma fill_bin_steps (fake1 fake2 : fakerate) (doubles doubles_en : R)
      (c c' : nat) (total : AffineScalarFunc) :
  estimate_fake_sum fake1 fake2 doubles doubles_en c = Returned (total, c') ->
  fill_bin fake1 fake2 doubles doubles_en c
  = Returned ((py_max 0 (nominal_value total), std_dev total), c').
Proof.
  intros Hrun. unfold fill_bin, bind. rewrite Hrun. reflexivity.
Qed.

(** C7. [estimate_fake_sum] returns the signed sum of the central values,
    region 1 plus region 2 minus the double-object term, whatever its
    sign, together with the standard deviation of the three terms in
    quadrature, the root of the sum of their variances; the bin loop of the
    driver is where a negative value is replaced by 0, and it stores the
    standard deviation as returned. *)
Theorem estimator_returns_signed_value
        (fr1 fr2 : fakerate) (fr12s fr12en : R) (c : nat) :
  region_defined fr1 -> region_defined fr2 -> 0 <= fr12en ->
  exists total,
    result (estimate_fake_sum fr1 fr2 fr12s fr12en c) = Returned total
    /\ nominal_value total
       = central_estimate fr1 + central_estimate fr2
         - double_central fr12s fr12en
    /\ std_dev total
       = sqrt (region_variance fr1 + region_variance fr2
               + double_variance fr12s fr12en)
    /\ result (fill_bin fr1 fr2 fr12s fr12en c)
       = Returned (if Rlt_dec 0 (nominal_value total)
                   then nominal_value total else 0,
                   std_dev total).
Proof.
  intros Hr1 Hr2 Hn.
  destruct (estimate_fake_sum_defined fr1 fr2 fr12s fr12en c Hr1 Hr2 Hn)
    as (f1 & c1 & f2 & c2 & d & c3 & _ & _ & _ & Hrun & Hvar
        & [Hn1 Hv1] & [Hn2 Hv2] & [Hnd Hvd]).
  exists (sub (add f1 f2) d).
  rewrite Hrun, (fill_bin_steps _ _ _ _ _ _ _ Hrun). cbn [result].
  split; [reflexivity |]. split; [| split; [| reflexivity]].
  - cbn [sub add nominal_value]. rewrite Hn1, Hn2, Hnd. reflexivity.
  - rewrite std_dev_variance, Hvar, Hv1, Hv2, Hvd. reflexivity.
Qed.

Lemma estimator_returns_signed_value_witness :
  exists total,
    result (estimate_fake_sum empty_region empty_region 5 4 0%nat)
    = Returned total
    /\ nominal_value total = -5
    /\ std_dev total = sqrt (5 ^ 2 / 4)
    /\ result (fill_bin empty_region empty_region 5 4 0%nat)
       = Returned (0, std_dev total).
Proof.
  destruct (estimator_returns_signed_value
              empty_region empty_region 5 4 0%nat
              empty_region_defined empty_region_defined)
    as (total & Hrun & Hnom & Hstd & Hbin); [lra |].
  exists total. split; [exact Hrun |].
  unfold central_estimate, double_central in Hnom.
  unfold region_variance, double_variance in Hstd.
  cbn [empty_region en] in Hnom, Hstd.
  destruct (Req_dec_T 0 0) as [_ | Hnz]; [| lra].
  destruct (Req_dec_T 4 0) as [Hz | _]; [lra |].
  assert (Hneg : nominal_value total = -5) by (rewrite Hnom; ring).
  split; [exact Hneg |].
  split; [rewrite Hstd; f_equal; ring |].
  rewrite Hbin.
  destruct (Rlt_dec 0 (nominal_value total)) as [Hpos | _];
    [lra | reflexivity].
Defined.

(** C8. On inputs of the data model, exchanging the two regions changes
    neither the nominal value nor the standard deviation of what
    [estimate_fake_sum] returns, and with equal regions the two calls
    return the same quantity; when one order stops on a division by zero,
    so does the other. *)
Theorem swapping_regions_keeps_estimate
        (fr1 fr2 : fakerate) (fr12s fr12en : R) (c : nat) :
  valid_region fr1 -> valid_region fr2 -> 0 <= fr12s -> 0 <= fr12en ->
  match result (estimate_fake_sum fr1 fr2 fr12s fr12en c),
        result (estimate_fake_sum fr2 fr1 fr12s fr12en c) with
  | Returned total, Returned swapped =>
      nominal_value total = nominal_value swapped
      /\ std_dev total = std_dev swapped
      /\ (fr1 = fr2 -> total = swapped)
  | Raised e, Raised e' => e = ZeroDivisionError /\ e' = ZeroDivisionError
  | _, _ => False
  end.
Proof.
  intros (Hen1 & _ & _ & _ & H1231) (Hen2 & _ & _ & _ & H1232) _ Hn.
  destruct (valid_counts_outcome fr1 fr2 fr12s fr12en c
              Hen1 H1231 Hen2 H1232) as [[Hr1 Hr2] | [Hrun Hrun']].
  - destruct (estimate_fake_sum_defined fr1 fr2 fr12s fr12en c Hr1 Hr2 Hn)
      as (f1 & c1 & f2 & c2 & d & c3 & _ & _ & _ & Hrun & Hvar
          & [Hn1 Hv1] & [Hn2 Hv2] & [Hnd Hvd]).
    destruct (estimate_fake_sum_defined fr2 fr1 fr12s fr12en c Hr2 Hr1 Hn)
      as (g2 & k1 & g1 & k2 & e & k3 & _ & _ & _ & Hrun' & Hvar'
          & [Hm2 Hw2] & [Hm1 Hw1] & [Hme Hwe]).
    rewrite Hrun, Hrun'. cbn [result].
    split; [| split].
    + cbn [sub add nominal_value].
      rewrite Hn1, Hn2, Hnd, Hm1, Hm2, Hme. ring.
    + rewrite !std_dev_variance, Hvar, Hvar'.
      rewrite Hv1, Hv2, Hvd, Hw1, Hw2, Hwe. f_equal. ring.
    + intros Heq. subst fr2. congruence.
  - rewrite Hrun, Hrun'. cbn [result]. split; reflexivity.
Qed.

Lemma swapping_regions_keeps_estimate_witness :
  exists total swapped,
    result (estimate_fake_sum scenario_region1 empty_region 3 4 0%nat)
    = Returned total
    /\ result (estimate_fake_sum empty_region scenario_region1 3 4 0%nat)
       = Returned swapped
    /\ nominal_value total = nominal_value swapped
    /\ std_dev total = std_dev swapped.
Proof.
  assert (H3 : 0 <= 3) by lra. assert (H4 : 0 <= 4) by lra.
  pose proof (swapping_regions_keeps_estimate
                scenario_region1 empty_region 3 4 0%nat
                scenario_region1_valid empty_region_valid H3 H4) as Hswap.
  destruct (estimate_fake_sum_defined scenario_region1 empty_region 3 4 0%nat
              scenario_region1_defined empty_region_defined H4)
    as (g1 & k1 & g2 & k2 & e & k3 & _ & _ & _ & Hrun & _).
  destruct (estimate_fake_sum_defined empty_region scenario_region1 3 4 0%nat
              empty_region_defined scenario_region1_defined H4)
    as (h1 & l1 & h2 & l2 & e' & l3 & _ & _ & _ & Hrun' & _).
  rewrite Hrun, Hrun' in Hswap. cbn [result] in Hswap.
  destruct Hswap as (Hnom & Hstd & _).
  exists (sub (add g1 g2) e), (sub (add h1 h2) e').
  rewrite Hrun, Hrun'. cbn [result].
  split; [reflexivity |]. split; [reflexivity |].
  split; [exact Hnom | exact Hstd].
Defined.

(** C4, as stated: on the scenario the combined nominal value is 10.5, not
    11. *)
Lemma scenario_nominal_value_is_not_eleven :
  exists total,
    result (estimate_fake_sum scenario_region1 empty_region 0 0 0%nat)
    = Returned total
    /\ nominal_value total = 21 / 2
    /\ nominal_value total <> 11.
Proof.
  destruct (estimate_fake_sum_defined
              scenario_region1 empty_region 0 0 0%nat
              scenario_region1_defined empty_region_defined (Rle_refl 0))
    as (f1 & c1 & f2 & c2 & d & c3 & _ & _ & _ & Hrun & _
        & [Hn1 _] & [Hn2 _] & [Hnd _]).
  exists (sub (add f1 f2) d). rewrite Hrun. cbn [result].
  split; [reflexivity |].
  assert (Hnom : nominal_value (sub (add f1 f2) d) = 21 / 2).
  { cbn [sub add nominal_value]. rewrite Hn1, Hn2, Hnd.
    unfold central_estimate, double_central, mix.
    cbn [scenario_region1 empty_region en ewk_s qcd_s _123].
    destruct (Req_dec_T 100 0) as [Hz | _]; [lra |].
    destruct (Req_dec_T 0 0) as [_ | Hnz]; [| lra].
    field. }
  split; [exact Hnom |]. rewrite Hnom. lra.
Qed.

(** C4, amended.  On [region1 = {en:100, ewk_s:10, qcd_s:20, 123:5,
    123en:50}], a second region with ['en'] zero, and both double-object
    arguments zero: the second region contributes nominal value 0 with
    standard deviation 0 and the double-object term is the number 0; the
    QCD fraction of region 1 has central value 5/100 = 0.05, the estimate
    of region 1 has central value 0.95*10 + 0.05*20 = 10.5, and the
    quantity returned has nominal value 10.5 and standard deviation
    [sqrt (201/200)], which is positive. *)
Theorem end_to_end_scenario (fr2 : fakerate) (c : nat) :
  en fr2 = 0 ->
  exists qcd_fraction fake1est fake2est double total,
    (exists enriched_region_error qcd_in_enriched_region_error,
        result (get_rel_counting_err 100 c) = Returned enriched_region_error
        /\ result (get_rel_counting_err 50 (S c))
           = Returned qcd_in_enriched_region_error
        /\ result (div (mul (number 5) qcd_in_enriched_region_error)
                       (mul (number 100) enriched_region_error) (S (S c)))
           = Returned qcd_fraction)
    /\ compute_errors scenario_region1 c = Returned (fake1est, S (S c))
    /\ result (compute_errors fr2 (S (S c))) = Returned fake2est
    /\ double_est 0 0 (S (S (S c))) = Returned (double, S (S (S c)))
    /\ result (estimate_fake_sum scenario_region1 fr2 0 0 c) = Returned total
    /\ (nominal_value fake2est = 0 /\ std_dev fake2est = 0)
    /\ double = number 0
    /\ nominal_value qcd_fraction = 5 / 100
    /\ nominal_value fake1est = 95 / 100 * 10 + 5 / 100 * 20
    /\ nominal_value total = 21 / 2
    /\ std_dev total = sqrt (201 / 200)
    /\ 0 < std_dev total.
Proof.
  intros Hz2.
  assert (Hen : 0 < en scenario_region1) by (cbn; lra).
  assert (H123 : 0 < _123en scenario_region1) by (cbn; lra).
  destruct (compute_errors_steps scenario_region1 c Hen H123)
    as (E & Q & qf & f1 & HE & HQ & Hqf & Hf1 & _ & Hnq & _ & Hn1 & Hv1).
  pose proof (compute_errors_zero fr2 (S (S c)) Hz2) as Hf2.
  pose proof (double_est_zero 0 (S (S (S c)))) as Hd.
  pose proof (estimate_fake_sum_steps _ _ _ _ _ _ _ _ _ _ _ Hf1 Hf2 Hd)
    as Hrun.
  destruct (compute_errors_defined fr2 (S (S c)) (or_introl Hz2))
    as (f2 & c2 & Hf2' & Ha2 & _ & Hn2 & Hv2).
  rewrite Hf2 in Hf2'. injection Hf2' as Hf2eq Hc2. subst c2.
  destruct (compute_errors_defined scenario_region1 c
              (or_intror (conj Hen H123)))
    as (f1' & c1 & Hf1' & Ha1 & _ & _ & _).
  rewrite Hf1 in Hf1'. injection Hf1' as Hf1eq Hc1. subst f1' c1.
  unfold central_estimate, mix in Hn1, Hn2.
  unfold region_variance in Hv1, Hv2.
  cbn [scenario_region1 en ewk_s qcd_s _123 _123en] in *.
  destruct (Req_dec_T 100 0) as [Hz | _]; [lra |].
  destruct (Req_dec_T (en fr2) 0) as [_ | Hnz]; [| lra].
  assert (Hvar : variance
                   (sub (add f1 f2) (number 0)) = 201 / 200).
  { rewrite (variance_total c (S (S c)) (S (S (S c))) (S (S (S c))));
      [| lia | lia | exact Ha1 | exact Ha2
       | split; [constructor | constructor]].
    rewrite Hv1, Hv2. unfold variance. cbn. field. }
  eexists qf, f1, _, (number 0), _.
  split; [exists E, Q; rewrite HE, HQ, Hqf; repeat split |].
  split; [exact Hf1 |].
  split; [rewrite Hf2; reflexivity |].
  split; [exact Hd |].
  split; [rewrite Hrun; reflexivity |].
  rewrite Hf2eq.
  split; [split; [exact Hn2 | rewrite std_dev_variance, Hv2; apply sqrt_0] |].
  split; [reflexivity |].
  split; [rewrite Hnq; reflexivity |].
  split; [rewrite Hn1; field |].
  split; [cbn [sub add nominal_value number]; rewrite Hn1, Hn2; field |].
  rewrite std_dev_variance, Hvar.
  split; [reflexivity | apply sqrt_lt_R0; lra].
Qed.

Lemma end_to_end_scenario_witness :
  exists total,
    result (estimate_fake_sum scenario_region1 empty_region 0 0 0%nat)
    = Returned total
    /\ nominal_value total = 21 / 2
    /\ 0 < std_dev total.
Proof.
  destruct (end_to_end_scenario empty_region 0%nat eq_refl)
    as (qf & f1 & f2 & d & total & _ & _ & _ & _ & Hrun & _ & _ & _ & _
        & Hnom & _ & Hpos).
  exists total. split; [exact Hrun |]. split; [exact Hnom | exact Hpos].
Defined.

(** C1, as stated: a negative [double_signal_estimate] is not rejected; an
    estimate is returned. *)
Lemma negative_double_signal_estimate_is_accepted :
  exists total,
    result (estimate_fake_sum empty_region empty_region (-1) 1 0%nat)
    = Returned total
    /\ nominal_value total = 1.
Proof.
  destruct (estimate_fake_sum_defined
              empty_region empty_region (-1) 1 0%nat
              empty_region_defined empty_region_defined Rle_0_1)
    as (f1 & c1 & f2 & c2 & d & c3 & _ & _ & _ & Hrun & _
        & [Hn1 _] & [Hn2 _] & [Hnd _]).
  exists (sub (add f1 f2) d). rewrite Hrun. cbn [result].
  split; [reflexivity |].
  cbn [sub add nominal_value]. rewrite Hn1, Hn2, Hnd.
  unfold central_estimate, double_central. cbn [empty_region en].
  destruct (Req_dec_T 0 0) as [_ | Hnz]; [| lra].
  destruct (Req_dec_T 1 0) as [Hz | _]; [lra | ring].
Qed.

(** C1, amended.  [estimate_fake_sum] checks none of its inputs.  A
    negative count that reaches [math.sqrt] stops it with [ValueError]: a
    negative ['en'], a negative ['123en'] in a region whose ['en'] is
    positive, a negative [fr12en], each provided the terms computed before
    it are defined.  Nothing else is rejected: whenever both regions are
    defined and [fr12en] is not negative an estimate is returned, whatever
    the signs of ['ewk_s'], ['qcd_s'], ['123'] and [fr12s]. *)
Theorem negative_inputs_outcome
        (fr1 fr2 : fakerate) (fr12s fr12en : R) (c : nat) :
  (en fr1 < 0 \/ (0 < en fr1 /\ _123en fr1 < 0) ->
   result (estimate_fake_sum fr1 fr2 fr12s fr12en c) = Raised ValueError)
  /\ (region_defined fr1 ->
      en fr2 < 0 \/ (0 < en fr2 /\ _123en fr2 < 0) ->
      result (estimate_fake_sum fr1 fr2 fr12s fr12en c) = Raised ValueError)
  /\ (region_defined fr1 -> region_defined fr2 -> fr12en < 0 ->
      result (estimate_fake_sum fr1 fr2 fr12s fr12en c) = Raised ValueError)
  /\ (region_defined fr1 -> region_defined fr2 -> 0 <= fr12en ->
      exists total,
        result (estimate_fake_sum fr1 fr2 fr12s fr12en c) = Returned total).
Proof.
  assert (Hregion : forall fr k,
             en fr < 0 \/ (0 < en fr /\ _123en fr < 0) ->
             compute_errors fr k = Raised ValueError).
  { intros fr k [Hneg | [Hpos Hneg]].
    - apply compute_errors_neg_en. exact Hneg.
    - apply compute_errors_neg_123en; assumption. }
  split; [| split; [| split]].
  - intros Hbad.
    rewrite (estimate_raises_first fr1 fr2 fr12s fr12en c ValueError
               (Hregion fr1 c Hbad)).
    reflexivity.
  - intros Hr1 Hbad.
    destruct (compute_errors_defined fr1 c Hr1) as (f1 & c1 & Hf1 & _).
    rewrite (estimate_raises_second fr1 fr2 fr12s fr12en c c1 f1 ValueError
               Hf1 (Hregion fr2 c1 Hbad)).
    reflexivity.
  - intros Hr1 Hr2 Hneg.
    destruct (compute_errors_defined fr1 c Hr1) as (f1 & c1 & Hf1 & _).
    destruct (compute_errors_defined fr2 c1 Hr2) as (f2 & c2 & Hf2 & _).
    rewrite (estimate_raises_third fr1 fr2 fr12s fr12en c c1 c2 f1 f2
               ValueError Hf1 Hf2 (double_est_neg fr12s fr12en c2 Hneg)).
    reflexivity.
  - intros Hr1 Hr2 Hn.
    destruct (estimate_fake_sum_defined fr1 fr2 fr12s fr12en c Hr1 Hr2 Hn)
      as (f1 & c1 & f2 & c2 & d & c3 & _ & _ & _ & Hrun & _).
    exists (sub (add f1 f2) d). rewrite Hrun. reflexivity.
Qed.

(** A region whose enriched count is negative, and one whose estimates
    are negative. *)
Lemma negative_inputs_outcome_witness :
  result (estimate_fake_sum
            {| en := -1; ewk_s := 0; qcd_s := 0; _123 := 0; _123en := 0 |}
            empty_region 0 0 0%nat)
  = Raised ValueError
  /\ result (estimate_fake_sum empty_region empty_region 0 (-4) 0%nat)
     = Raised ValueError
  /\ exists total,
       result (estimate_fake_sum
                 {| en := 4; ewk_s := -1; qcd_s := -2; _123 := -3;
                    _123en := 9 |}
                 empty_region (-5) 4 0%nat)
       = Returned total.
Proof.
  split; [| split].
  - apply (proj1 (negative_inputs_outcome _ empty_region 0 0 0%nat)).
    left. cbn [en]. lra.
  - apply (proj1 (proj2 (proj2 (negative_inputs_outcome
                                  empty_region empty_region 0 (-4) 0%nat))));
      [exact empty_region_defined | exact empty_region_defined | lra].
  - apply (proj2 (proj2 (proj2 (negative_inputs_outcome
                                  _ empty_region (-5) 4 0%nat))));
      [| exact empty_region_defined | lra].
    right. cbn [en _123en]. split; lra.
Defined.

(** ** Outcomes on arbitrary inputs *)

Section Classification.

Lemma region_cases (fr : fakerate) :
  region_defined fr \/ region_negative fr \/ region_degenerate fr.
Proof.
  unfold region_defined, region_negative, region_degenerate.
  destruct (Rtotal_order (en fr) 0) as [Hen | [Hen | Hen]];
    destruct (Rtotal_order (_123en fr) 0) as [H123 | [H123 | H123]];
    unfold Rgt in *; tauto.
Qed.

Lemma compute_errors_error (fr : fakerate) (e : exception) (c : nat) :
  region_error fr e -> compute_errors fr c = Raised e.
Proof.
  intros [[He [Hen | [Hen H123]]] | [He [Hen H123]]]; subst e.
  - apply compute_errors_neg_en. exact Hen.
  - apply compute_errors_neg_123en; assumption.
  - apply compute_errors_zero_123en; assumption.
Qed.

Lemma region_error_cases (fr : fakerate) :
  region_defined fr \/ exists e, region_error fr e.
Proof.
  destruct (region_cases fr) as [Hdef | [Hneg | Hdeg]].
  - left. exact Hdef.
  - right. exists ValueError. left. split; [reflexivity | exact Hneg].
  - right. exists ZeroDivisionError. right. split; [reflexivity | exact Hdeg].
Qed.

Lemma estimate_error_raises (fr1 fr2 : fakerate) (fr12s fr12en : R)
      (e : exception) (c : nat) :
  estimate_error fr1 fr2 fr12en e ->
  estimate_fake_sum fr1 fr2 fr12s fr12en c = Raised e.
Proof.
  intros [H1 | [[Hr1 H2] | (Hr1 & Hr2 & Hn & He)]].
  - apply estimate_raises_first. apply compute_errors_error. exact H1.
  - destruct (compute_errors_defined fr1 c Hr1) as (f1 & c1 & Hf1 & _).
    apply (estimate_raises_second fr1 fr2 fr12s fr12en c c1 f1 e Hf1).
    apply compute_errors_error. exact H2.
  - subst e.
    destruct (compute_errors_defined fr1 c Hr1) as (f1 & c1 & Hf1 & _).
    destruct (compute_errors_defined fr2 c1 Hr2) as (f2 & c2 & Hf2 & _).
    apply (estimate_raises_third fr1 fr2 fr12s fr12en c c1 c2 f1 f2
             ValueError Hf1 Hf2).
    apply double_est_neg. exact Hn.
Qed.

Lemma estimate_cases (fr1 fr2 : fakerate) (fr12en : R) :
  (region_defined fr1 /\ region_defined fr2 /\ 0 <= fr12en)
  \/ exists e, estimate_error fr1 fr2 fr12en e.
Proof.
  destruct (region_error_cases fr1) as [Hr1 | [e He]];
    [| right; exists e; left; exact He].
  destruct (region_error_cases fr2) as [Hr2 | [e He]];
    [| right; exists e; right; left; split; assumption].
  destruct (Rle_or_lt 0 fr12en) as [Hn | Hn].
  - left. repeat split; assumption.
  - right. exists ValueError. right. right. repeat split; assumption.
Qed.

Lemma estimate_closed_form (fr1 fr2 : fakerate) (fr12s fr12en : R)
      (c : nat) :
  region_defined fr1 -> region_defined fr2 -> 0 <= fr12en ->
  exists total c',
    estimate_fake_sum fr1 fr2 fr12s fr12en c = Returned (total, c')
    /\ nominal_value total
       = central_estimate fr1 + central_estimate fr2
         - double_central fr12s fr12en
    /\ variance total
       = region_variance fr1 + region_variance fr2
         + double_variance fr12s fr12en.
Proof.
  intros Hr1 Hr2 Hn.
  destruct (estimate_fake_sum_defined fr1 fr2 fr12s fr12en c Hr1 Hr2 Hn)
    as (f1 & c1 & f2 & c2 & d & c3 & _ & _ & _ & Hrun & Hvar
        & [Hn1 Hv1] & [Hn2 Hv2] & [Hnd Hvd]).
  exists (sub (add f1 f2) d), c3. split; [exact Hrun |]. split.
  - cbn [sub add nominal_value]. rewrite Hn1, Hn2, Hnd. reflexivity.
  - rewrite Hvar, Hv1, Hv2, Hvd. reflexivity.
Qed.

End Classification.

(** ** Further properties of the estimator *)

(** X1. [get_rel_counting_err] returns for a positive count only: a
    quantity with nominal value 1 and standard deviation
    [sqrt(number)/number], which depends on one new variable.  On a zero
    count it stops with [ZeroDivisionError], on a negative one with
    [ValueError]. *)
Theorem get_rel_counting_err_outcome (number : R) (c : nat) :
  match get_rel_counting_err number c with
  | Returned (u, c') =>
      0 < number /\ c' = S c /\ ids (derivatives u) = [c]
      /\ nominal_value u = 1 /\ std_dev u = sqrt number / number
  | Raised ZeroDivisionError => number = 0
  | Raised ValueError => number < 0
  end.
Proof.
  destruct (Rtotal_order number 0) as [Hneg | [Hz | Hpos]].
  - rewrite get_rel_counting_err_neg by assumption. exact Hneg.
  - subst number. rewrite get_rel_counting_err_zero. reflexivity.
  - rewrite get_rel_counting_err_pos by assumption.
    split; [exact Hpos |]. split; [reflexivity |]. split; [reflexivity |].
    split; [reflexivity |].
    assert (Hroot : 0 <= sqrt number) by apply sqrt_pos.
    unfold std_dev, error_components.
    cbn [derivatives map fold_left fst snd counting_variable var_std_dev].
    apply sqrt_lem_1.
    + rewrite pow2_abs. nra.
    + apply Rle_mult_inv_pos; [exact Hroot | exact Hpos].
    + rewrite pow2_abs. ring.
Qed.

(** X2. [compute_errors] stops with [ValueError] when ['en'] is negative,
    or ['en'] is positive and ['123en'] negative, and with
    [ZeroDivisionError] when ['en'] is positive and ['123en'] is zero.
    Whenever it returns, ['en'] is zero or ['en'] and ['123en'] are both
    positive, and the quantity returned has the central value and the
    standard deviation of the closed form. *)
Theorem compute_errors_outcome (fr : fakerate) (c : nat) :
  (region_negative fr -> result (compute_errors fr c) = Raised ValueError)
  /\ (region_degenerate fr ->
      result (compute_errors fr c) = Raised ZeroDivisionError)
  /\ (forall u,
        result (compute_errors fr c) = Returned u ->
        region_defined fr
        /\ nominal_value u = central_estimate fr
        /\ std_dev u = sqrt (region_variance fr)).
Proof.
  split; [| split].
  - intros Hneg.
    rewrite (compute_errors_error fr ValueError c)
      by (left; split; [reflexivity | exact Hneg]).
    reflexivity.
  - intros Hdeg.
    rewrite (compute_errors_error fr ZeroDivisionError c)
      by (right; split; [reflexivity | exact Hdeg]).
    reflexivity.
  - intros u Hu.
    destruct (region_error_cases fr) as [Hdef | [e He]].
    + destruct (compute_errors_defined fr c Hdef)
        as (u' & c' & Hu' & _ & _ & Hn & Hv).
      rewrite Hu' in Hu. cbn [result] in Hu. injection Hu as Hu. subst u'.
      split; [exact Hdef |]. split; [exact Hn |].
      rewrite std_dev_variance, Hv. reflexivity.
    + rewrite (compute_errors_error fr e c He) in Hu. discriminate Hu.
Qed.

Lemma compute_errors_outcome_witness :
  result (compute_errors
            {| en := 4; ewk_s := 0; qcd_s := 0; _123 := 0; _123en := -9 |}
            0%nat)
  = Raised ValueError
  /\ result (compute_errors degenerate_region 0%nat)
     = Raised ZeroDivisionError
  /\ exists u,
       result (compute_errors scenario_region1 0%nat) = Returned u
       /\ region_defined scenario_region1
       /\ nominal_value u = central_estimate scenario_region1
       /\ std_dev u = sqrt (region_variance scenario_region1).
Proof.
  split; [| split].
  - apply (proj1 (compute_errors_outcome _ 0%nat)).
    right. cbn [en _123en]. split; lra.
  - apply (proj1 (proj2 (compute_errors_outcome degenerate_region 0%nat))).
    split; cbn [degenerate_region en _123en]; [lra | reflexivity].
  - destruct (compute_errors_defined scenario_region1 0%nat
                scenario_region1_defined) as (u & c' & Hu & _).
    assert (Hrun : result (compute_errors scenario_region1 0%nat)
                   = Returned u) by (rewrite Hu; reflexivity).
    exists u. split; [exact Hrun |].
    exact (proj2 (proj2 (compute_errors_outcome scenario_region1 0%nat))
             u Hrun).
Defined.

(** X3. Whenever [estimate_fake_sum] returns, [compute_errors] is defined
    on both regions and [fr12en] is not negative, and the nominal value and
    the standard deviation are the closed forms.  The three terms are
    computed in the order region 1, region 2, double-object term, and the
    first one that stops decides the exception: the one of region 1; when
    region 1 returned, the one of region 2; when both returned and [fr12en]
    is negative, [ValueError]. *)
Theorem estimate_fake_sum_outcome
        (fr1 fr2 : fakerate) (fr12s fr12en : R) (c : nat) :
  (forall total,
     result (estimate_fake_sum fr1 fr2 fr12s fr12en c) = Returned total ->
     region_defined fr1 /\ region_defined fr2 /\ 0 <= fr12en
     /\ nominal_value total
        = central_estimate fr1 + central_estimate fr2
          - double_central fr12s fr12en
     /\ std_dev total
        = sqrt (region_variance fr1 + region_variance fr2
                + double_variance fr12s fr12en))
  /\ (forall e,
        region_error fr1 e ->
        result (estimate_fake_sum fr1 fr2 fr12s fr12en c) = Raised e)
  /\ (forall e f1 c1,
        compute_errors fr1 c = Returned (f1, c1) ->
        region_error fr2 e ->
        result (estimate_fake_sum fr1 fr2 fr12s fr12en c) = Raised e)
  /\ (forall f1 c1 f2 c2,
        compute_errors fr1 c = Returned (f1, c1) ->
        compute_errors fr2 c1 = Returned (f2, c2) ->
        fr12en < 0 ->
        result (estimate_fake_sum fr1 fr2 fr12s fr12en c)
        = Raised ValueError).
Proof.
  split; [| split; [| split]].
  - intros total Hrun.
    destruct (estimate_cases fr1 fr2 fr12en) as [(Hr1 & Hr2 & Hn) | [e He]].
    + destruct (estimate_closed_form fr1 fr2 fr12s fr12en c Hr1 Hr2 Hn)
        as (t & c' & Ht & Hnom & Hvar).
      rewrite Ht in Hrun. cbn [result] in Hrun. injection Hrun as Hrun.
      subst t.
      split; [exact Hr1 |]. split; [exact Hr2 |]. split; [exact Hn |].
      split; [exact Hnom |]. rewrite std_dev_variance, Hvar. reflexivity.
    + rewrite (estimate_error_raises fr1 fr2 fr12s fr12en e c He) in Hrun.
      discriminate Hrun.
  - intros e He.
    rewrite (estimate_raises_first fr1 fr2 fr12s fr12en c e
               (compute_errors_error fr1 e c He)).
    reflexivity.
  - intros e f1 c1 Hf1 He.
    rewrite (estimate_raises_second fr1 fr2 fr12s fr12en c c1 f1 e Hf1
               (compute_errors_error fr2 e c1 He)).
    reflexivity.
  - intros f1 c1 f2 c2 Hf1 Hf2 Hn.
    rewrite (estimate_raises_third fr1 fr2 fr12s fr12en c c1 c2 f1 f2
               ValueError Hf1 Hf2 (double_est_neg fr12s fr12en c2 Hn)).
    reflexivity.
Qed.

Lemma estimate_fake_sum_outcome_witness :
  (exists total,
     result (estimate_fake_sum scenario_region1 empty_region 3 4 0%nat)
     = Returned total
     /\ nominal_value total
        = central_estimate scenario_region1 + central_estimate empty_region
          - double_central 3 4
     /\ std_dev total
        = sqrt (region_variance scenario_region1
                + region_variance empty_region + double_variance 3 4))
  /\ result (estimate_fake_sum degenerate_region empty_region 3 4 0%nat)
     = Raised ZeroDivisionError
  /\ result (estimate_fake_sum empty_region degenerate_region 3 4 0%nat)
     = Raised ZeroDivisionError
  /\ result (estimate_fake_sum empty_region empty_region 3 (-4) 0%nat)
     = Raised ValueError.
Proof.
  assert (Hdeg : region_error degenerate_region ZeroDivisionError).
  { right. split; [reflexivity |].
    split; cbn [degenerate_region en _123en]; [lra | reflexivity]. }
  split; [| split; [| split]].
  - assert (H4 : 0 <= 4) by lra.
    destruct (estimate_closed_form scenario_region1 empty_region 3 4 0%nat
                scenario_region1_defined empty_region_defined H4)
      as (t & c' & Ht & _).
    assert (Hrun : result (estimate_fake_sum scenario_region1 empty_region
                             3 4 0%nat) = Returned t)
      by (rewrite Ht; reflexivity).
    exists t. split; [exact Hrun |].
    exact (proj2 (proj2 (proj2
             (proj1 (estimate_fake_sum_outcome scenario_region1 empty_region
                       3 4 0%nat) t Hrun)))).
  - exact (proj1 (proj2 (estimate_fake_sum_outcome
                           degenerate_region empty_region 3 4 0%nat))
             ZeroDivisionError Hdeg).
  - exact (proj1 (proj2 (proj2 (estimate_fake_sum_outcome
                                  empty_region degenerate_region 3 4 0%nat)))
             ZeroDivisionError _ _
             (compute_errors_zero empty_region 0%nat eq_refl) Hdeg).
  - apply (proj2 (proj2 (proj2 (estimate_fake_sum_outcome
                                  empty_region empty_region 3 (-4) 0%nat)))
             _ _ _ _
             (compute_errors_zero empty_region 0%nat eq_refl)
             (compute_errors_zero empty_region 1%nat eq_refl)).
    lra.
Defined.

(** X4. The nominal value, the standard deviation and the exception of
    [estimate_fake_sum] do not depend on how many variables the package
    created before the call: the estimate of a bin is the same whatever was
    computed before it. *)
Theorem estimate_independent_of_earlier_calls
        (fr1 fr2 : fakerate) (fr12s fr12en : R) (c c' : nat) :
  match result (estimate_fake_sum fr1 fr2 fr12s fr12en c),
        result (estimate_fake_sum fr1 fr2 fr12s fr12en c') with
  | Returned total, Returned total' =>
      nominal_value total = nominal_value total'
      /\ std_dev total = std_dev total'
  | Raised e, Raised e' => e = e'
  | _, _ => False
  end.
Proof.
  destruct (estimate_cases fr1 fr2 fr12en) as [(Hr1 & Hr2 & Hn) | [e He]].
  - destruct (estimate_closed_form fr1 fr2 fr12s fr12en c Hr1 Hr2 Hn)
      as (t & k & Hrun & Hnom & Hvar).
    destruct (estimate_closed_form fr1 fr2 fr12s fr12en c' Hr1 Hr2 Hn)
      as (t' & k' & Hrun' & Hnom' & Hvar').
    rewrite Hrun, Hrun'. cbn [result]. split.
    + rewrite Hnom, Hnom'. reflexivity.
    + rewrite !std_dev_variance, Hvar, Hvar'. reflexivity.
  - rewrite (estimate_error_raises fr1 fr2 fr12s fr12en e c He).
    rewrite (estimate_error_raises fr1 fr2 fr12s fr12en e c' He).
    reflexivity.
Qed.

(** X5. The exception depends on the order of the two regions: with a
    negative count in one region and, in the other, events with an empty
    triple-fake sample, the call stops with the error of the region that is
    passed first. *)
Theorem first_region_decides_the_exception
        (fr1 fr2 : fakerate) (fr12s fr12en : R) (c : nat) :
  region_negative fr1 -> region_degenerate fr2 ->
  result (estimate_fake_sum fr1 fr2 fr12s fr12en c) = Raised ValueError
  /\ result (estimate_fake_sum fr2 fr1 fr12s fr12en c)
     = Raised ZeroDivisionError.
Proof.
  intros Hneg Hdeg. split.
  - rewrite (estimate_error_raises fr1 fr2 fr12s fr12en ValueError c);
      [reflexivity |].
    left. left. split; [reflexivity | exact Hneg].
  - rewrite (estimate_error_raises fr2 fr1 fr12s fr12en ZeroDivisionError c);
      [reflexivity |].
    left. right. split; [reflexivity | exact Hdeg].
Qed.

Lemma first_region_decides_the_exception_witness :
  result (estimate_fake_sum
            {| en := -1; ewk_s := 0; qcd_s := 0; _123 := 0; _123en := 0 |}
            degenerate_region 0 0 0%nat)
  = Raised ValueError
  /\ result (estimate_fake_sum
               degenerate_region
               {| en := -1; ewk_s := 0; qcd_s := 0; _123 := 0; _123en := 0 |}
               0 0 0%nat)
     = Raised ZeroDivisionError.
Proof.
  apply (first_region_decides_the_exception
           {| en := -1; ewk_s := 0; qcd_s := 0; _123 := 0; _123en := 0 |}
           degenerate_region 0 0 0%nat).
  - left. cbn [en]. lra.
  - split; cbn [degenerate_region en _123en]; [lra | reflexivity].
Defined.

(** The central value of a region with events, as an interpolation. *)
Lemma mix_interpolates (fr : fakerate) :
  0 < en fr ->
  mix fr = ewk_s fr + _123 fr / en fr * (qcd_s fr - ewk_s fr).
Proof. intros Hen. unfold mix. field. lra. Qed.

Lemma compute_errors_positive (fr : fakerate) (c : nat) :
  0 < en fr -> 0 < _123en fr ->
  exists u,
    result (compute_errors fr c) = Returned u
    /\ nominal_value u = mix fr
    /\ variance u
       = (ewk_s fr) ^ 2 / en fr
         + ((qcd_s fr - ewk_s fr) * (_123 fr / en fr)) ^ 2 / _123en fr.
Proof.
  intros Hen H123.
  destruct (compute_errors_defined fr c (or_intror (conj Hen H123)))
    as (u & c' & Hu & _ & _ & Hn & Hv).
  exists u. rewrite Hu. split; [reflexivity |].
  unfold central_estimate in Hn. unfold region_variance in Hv.
  destruct (Req_dec_T (en fr) 0) as [Hz | _]; [lra |].
  split; assumption.
Qed.

(** X6. When ['123'] lies between 0 and ['en'], the nominal value of the
    estimate of a region lies between its two signal estimates ['ewk_s']
    and ['qcd_s']. *)
Theorem region_estimate_between_the_two_rates (fr : fakerate) (c : nat) :
  0 < en fr -> 0 < _123en fr -> 0 <= _123 fr <= en fr ->
  exists u,
    result (compute_errors fr c) = Returned u
    /\ Rmin (ewk_s fr) (qcd_s fr) <= nominal_value u
       <= Rmax (ewk_s fr) (qcd_s fr).
Proof.
  intros Hen H123 [Hlo Hhi].
  destruct (compute_errors_positive fr c Hen H123) as (u & Hu & Hn & _).
  exists u. split; [exact Hu |].
  rewrite Hn, mix_interpolates by assumption.
  assert (Hq0 : 0 <= _123 fr / en fr)
    by (apply Rle_mult_inv_pos; assumption).
  assert (Hq1 : _123 fr / en fr <= 1)
    by (apply (Rmult_le_reg_r (en fr)); [exact Hen |];
        unfold Rdiv; rewrite Rmult_assoc, Rinv_l by lra; lra).
  unfold Rmin, Rmax. destruct (Rle_dec (ewk_s fr) (qcd_s fr)); split; nra.
Qed.

Lemma region_estimate_between_the_two_rates_witness :
  exists u,
    result (compute_errors scenario_region1 0%nat) = Returned u
    /\ Rmin 10 20 <= nominal_value u <= Rmax 10 20.
Proof.
  apply (region_estimate_between_the_two_rates scenario_region1 0%nat);
    cbn [scenario_region1 en _123 _123en]; lra.
Defined.

(** X7. The fraction ['123'/'en'] is not limited to 1: when ['123']
    exceeds ['en'] and ['qcd_s'] is below ['ewk_s'], the nominal value of
    the estimate of the region is below both signal estimates. *)
Theorem region_estimate_overshoots (fr : fakerate) (c : nat) :
  0 < en fr -> 0 < _123en fr -> en fr < _123 fr -> qcd_s fr < ewk_s fr ->
  exists u,
    result (compute_errors fr c) = Returned u
    /\ nominal_value u < qcd_s fr.
Proof.
  intros Hen H123 Hover Hrates.
  destruct (compute_errors_positive fr c Hen H123) as (u & Hu & Hn & _).
  exists u. split; [exact Hu |].
  rewrite Hn, mix_interpolates by assumption.
  assert (Hq1 : 1 < _123 fr / en fr)
    by (apply (Rmult_lt_reg_r (en fr)); [exact Hen |];
        unfold Rdiv; rewrite Rmult_assoc, Rinv_l by lra; lra).
  nra.
Qed.

Lemma region_estimate_overshoots_witness :
  exists u,
    result (compute_errors
              {| en := 1; ewk_s := 1; qcd_s := 0; _123 := 3; _123en := 1 |}
              0%nat)
    = Returned u
    /\ nominal_value u < 0.
Proof.
  apply (region_estimate_overshoots
           {| en := 1; ewk_s := 1; qcd_s := 0; _123 := 3; _123en := 1 |}
           0%nat);
    cbn [en ewk_s qcd_s _123 _123en]; lra.
Defined.

Lemma sqrt_square_over (s n : R) :
  0 < n -> sqrt (s ^ 2 / n) = Rabs s / sqrt n.
Proof.
  intros Hn.
  replace (s ^ 2) with (Rsqr s) by (unfold Rsqr; ring).
  rewrite sqrt_div_alt by exact Hn. rewrite sqrt_Rsqr_abs. reflexivity.
Qed.

(** X8. When the two signal estimates of a region are the same number
    [s], the estimate of the region has nominal value [s] and standard
    deviation [|s| / sqrt('en')]: neither ['123'] nor ['123en'] has any
    influence, as long as ['123en'] is positive. *)
Theorem equal_rates_ignore_the_triple_fake_sample
        (fr : fakerate) (s : R) (c : nat) :
  0 < en fr -> 0 < _123en fr -> ewk_s fr = s -> qcd_s fr = s ->
  exists u,
    result (compute_errors fr c) = Returned u
    /\ nominal_value u = s
    /\ std_dev u = Rabs s / sqrt (en fr).
Proof.
  intros Hen H123 Hewk Hqcd.
  destruct (compute_errors_positive fr c Hen H123) as (u & Hu & Hn & Hv).
  exists u. split; [exact Hu |]. split.
  - rewrite Hn, mix_interpolates by assumption. rewrite Hewk, Hqcd. ring.
  - rewrite std_dev_variance, Hv, Hewk, Hqcd.
    replace (s ^ 2 / en fr + ((s - s) * (_123 fr / en fr)) ^ 2 / _123en fr)
      with (s ^ 2 / en fr) by (field; lra).
    apply sqrt_square_over. exact Hen.
Qed.

Lemma equal_rates_ignore_the_triple_fake_sample_witness :
  exists u,
    result (compute_errors
              {| en := 4; ewk_s := -6; qcd_s := -6; _123 := 7; _123en := 9 |}
              0%nat)
    = Returned u
    /\ nominal_value u = -6
    /\ std_dev u = Rabs (-6) / sqrt 4.
Proof.
  apply (equal_rates_ignore_the_triple_fake_sample
           {| en := 4; ewk_s := -6; qcd_s := -6; _123 := 7; _123en := 9 |}
           (-6) 0%nat);
    cbn [en ewk_s qcd_s _123en]; [lra | lra | reflexivity | reflexivity].
Defined.

(** X9. The two ends of the mix.  With ['123'] zero the estimate of a
    region is ['ewk_s'] with standard deviation [|ewk_s| / sqrt('en')], and
    ['qcd_s'] plays no role.  With ['123'] equal to ['en'] the nominal value
    is ['qcd_s'], but the standard deviation still contains ['ewk_s']: its
    square is [ewk_s^2/'en' + (qcd_s - ewk_s)^2/'123en']. *)
Theorem region_estimate_at_the_ends_of_the_mix (fr : fakerate) (c : nat) :
  0 < en fr -> 0 < _123en fr ->
  exists u,
    result (compute_errors fr c) = Returned u
    /\ (_123 fr = 0 ->
        nominal_value u = ewk_s fr
        /\ std_dev u = Rabs (ewk_s fr) / sqrt (en fr))
    /\ (_123 fr = en fr ->
        nominal_value u = qcd_s fr
        /\ std_dev u ^ 2
           = (ewk_s fr) ^ 2 / en fr
             + (qcd_s fr - ewk_s fr) ^ 2 / _123en fr).
Proof.
  intros Hen H123.
  destruct (compute_errors_positive fr c Hen H123) as (u & Hu & Hn & Hv).
  exists u. split; [exact Hu |]. split.
  - intros Hz. split.
    + rewrite Hn, mix_interpolates by assumption. rewrite Hz. field. lra.
    + rewrite std_dev_variance, Hv, Hz.
      replace ((ewk_s fr) ^ 2 / en fr
               + ((qcd_s fr - ewk_s fr) * (0 / en fr)) ^ 2 / _123en fr)
        with ((ewk_s fr) ^ 2 / en fr) by (field; lra).
      apply sqrt_square_over. exact Hen.
  - intros Heq. split.
    + rewrite Hn, mix_interpolates by assumption. rewrite Heq. field. lra.
    + rewrite std_dev_sqr, Hv, Heq. field. lra.
Qed.

Lemma region_estimate_at_the_ends_of_the_mix_witness :
  (exists u,
     result (compute_errors
               {| en := 4; ewk_s := 3; qcd_s := 8; _123 := 0; _123en := 9 |}
               0%nat)
     = Returned u
     /\ nominal_value u = 3 /\ std_dev u = Rabs 3 / sqrt 4)
  /\ (exists u,
        result (compute_errors
                  {| en := 4; ewk_s := 3; qcd_s := 8; _123 := 4;
                     _123en := 9 |} 0%nat)
        = Returned u
        /\ nominal_value u = 8
        /\ std_dev u ^ 2 = 3 ^ 2 / 4 + (8 - 3) ^ 2 / 9).
Proof.
  split.
  - destruct (region_estimate_at_the_ends_of_the_mix
                {| en := 4; ewk_s := 3; qcd_s := 8; _123 := 0; _123en := 9 |}
                0%nat) as (u & Hu & Hewk & _);
      [cbn [en]; lra | cbn [_123en]; lra |].
    exists u. split; [exact Hu |]. exact (Hewk eq_refl).
  - destruct (region_estimate_at_the_ends_of_the_mix
                {| en := 4; ewk_s := 3; qcd_s := 8; _123 := 4; _123en := 9 |}
                0%nat) as (u & Hu & _ & Hqcd);
      [cbn [en]; lra | cbn [_123en]; lra |].
    exists u. split; [exact Hu |]. exact (Hqcd eq_refl).
Defined.

(** ** Scaling and bounds *)

Section Scaling.

Variable k : R.

Lemma central_estimate_scale (fr : fakerate) :
  central_estimate (scale_estimates k fr) = k * central_estimate fr.
Proof.
  unfold central_estimate, mix. cbn [scale_estimates en ewk_s qcd_s _123].
  destruct (Req_dec_T (en fr) 0) as [Hz | Hnz]; [ring | field; exact Hnz].
Qed.

Lemma region_variance_scale (fr : fakerate) :
  region_defined fr ->
  region_variance (scale_estimates k fr) = k ^ 2 * region_variance fr.
Proof.
  intros Hdef. unfold region_variance.
  cbn [scale_estimates en ewk_s qcd_s _123 _123en].
  destruct (Req_dec_T (en fr) 0) as [Hz | Hnz]; [ring |].
  destruct Hdef as [Hz | [Hen H123]]; [contradiction |]. field. lra.
Qed.

Lemma double_central_scale (fr12s fr12en : R) :
  double_central (k * fr12s) fr12en = k * double_central fr12s fr12en.
Proof.
  unfold double_central. destruct (Req_dec_T fr12en 0); ring.
Qed.

Lemma double_variance_scale (fr12s fr12en : R) :
  double_variance (k * fr12s) fr12en = k ^ 2 * double_variance fr12s fr12en.
Proof.
  unfold double_variance.
  destruct (Req_dec_T fr12en 0) as [Hz | Hnz]; [ring | field; exact Hnz].
Qed.

Lemma sqrt_scale (v : R) : 0 <= v -> sqrt (k ^ 2 * v) = Rabs k * sqrt v.
Proof.
  intros Hv. replace (k ^ 2) with (Rsqr k) by (unfold Rsqr; ring).
  rewrite sqrt_mult by (try apply Rle_0_sqr; exact Hv).
  rewrite sqrt_Rsqr_abs. reflexivity.
Qed.

End Scaling.

(** X10. The estimate is linear in the signal estimates: multiplying
    ['ewk_s'] and ['qcd_s'] of both regions and [fr12s] by the same number
    [k] multiplies the nominal value by [k] and the standard deviation by
    [|k|]; the counts alone decide whether the call returns and which
    exception it stops on. *)
Theorem estimate_scales_with_the_signal_estimates
        (k : R) (fr1 fr2 : fakerate) (fr12s fr12en : R) (c : nat) :
  match result (estimate_fake_sum fr1 fr2 fr12s fr12en c),
        result (estimate_fake_sum (scale_estimates k fr1)
                                  (scale_estimates k fr2)
                                  (k * fr12s) fr12en c) with
  | Returned total, Returned scaled_total =>
      nominal_value scaled_total = k * nominal_value total
      /\ std_dev scaled_total = Rabs k * std_dev total
  | Raised e, Raised e' => e = e'
  | _, _ => False
  end.
Proof.
  destruct (estimate_cases fr1 fr2 fr12en) as [(Hr1 & Hr2 & Hn) | [e He]].
  - destruct (estimate_closed_form fr1 fr2 fr12s fr12en c Hr1 Hr2 Hn)
      as (t & c1 & Hrun & Hnom & Hvar).
    destruct (estimate_closed_form (scale_estimates k fr1)
                (scale_estimates k fr2) (k * fr12s) fr12en c Hr1 Hr2 Hn)
      as (t' & c2 & Hrun' & Hnom' & Hvar').
    rewrite Hrun, Hrun'. cbn [result]. split.
    + rewrite Hnom', Hnom, !central_estimate_scale, double_central_scale.
      ring.
    + rewrite !std_dev_variance, Hvar'.
      rewrite !region_variance_scale, double_variance_scale by assumption.
      rewrite <- sqrt_scale by apply variance_nonneg.
      rewrite Hvar. f_equal. ring.
  - rewrite (estimate_error_raises fr1 fr2 fr12s fr12en e c He).
    rewrite (estimate_error_raises (scale_estimates k fr1)
               (scale_estimates k fr2) (k * fr12s) fr12en e c He).
    reflexivity.
Qed.

(** X11. When [estimate_fake_sum] returns, the standard deviation of the
    result is at least the standard deviation of each of the three terms,
    the subtracted double-object term included, and at most their sum. *)
Theorem combined_uncertainty_bounds
        (fr1 fr2 : fakerate) (fr12s fr12en : R) (c : nat) :
  region_defined fr1 -> region_defined fr2 -> 0 <= fr12en ->
  exists total f1 f2 d,
    result (estimate_fake_sum fr1 fr2 fr12s fr12en c) = Returned total
    /\ result (compute_errors fr1 c) = Returned f1
    /\ result (compute_errors fr2 c) = Returned f2
    /\ result (double_est fr12s fr12en c) = Returned d
    /\ std_dev f1 <= std_dev total
    /\ std_dev f2 <= std_dev total
    /\ std_dev d <= std_dev total
    /\ std_dev total <= std_dev f1 + std_dev f2 + std_dev d.
Proof.
  intros Hr1 Hr2 Hn.
  destruct (estimate_closed_form fr1 fr2 fr12s fr12en c Hr1 Hr2 Hn)
    as (t & c' & Hrun & _ & Hvar).
  destruct (compute_errors_defined fr1 c Hr1)
    as (f1 & c1 & Hf1 & _ & _ & _ & Hv1).
  destruct (compute_errors_defined fr2 c Hr2)
    as (f2 & c2 & Hf2 & _ & _ & _ & Hv2).
  destruct (double_est_defined fr12s fr12en c Hn)
    as (d & c3 & Hd & _ & _ & _ & Hvd).
  exists t, f1, f2, d. rewrite Hrun, Hf1, Hf2, Hd. cbn [result].
  repeat (split; [reflexivity |]).
  pose proof (variance_nonneg f1) as Hp1.
  pose proof (variance_nonneg f2) as Hp2.
  pose proof (variance_nonneg d) as Hpd.
  rewrite <- Hv1, <- Hv2, <- Hvd in Hvar.
  rewrite !std_dev_variance, Hvar.
  split; [apply sqrt_le_1_alt; lra |].
  split; [apply sqrt_le_1_alt; lra |].
  split; [apply sqrt_le_1_alt; lra |].
  pose proof (sqrt_pos (variance f1)) as Hs1.
  pose proof (sqrt_pos (variance f2)) as Hs2.
  pose proof (sqrt_pos (variance d)) as Hsd.
  apply Rsqr_incr_0_var; [| lra].
  rewrite Rsqr_sqrt by lra.
  pose proof (sqrt_sqrt (variance f1) Hp1) as Hq1.
  pose proof (sqrt_sqrt (variance f2) Hp2) as Hq2.
  pose proof (sqrt_sqrt (variance d) Hpd) as Hqd.
  unfold Rsqr. nra.
Qed.

Lemma combined_uncertainty_bounds_witness :
  exists total f1 f2 d,
    result (estimate_fake_sum scenario_region1 empty_region 3 4 0%nat)
    = Returned total
    /\ result (compute_errors scenario_region1 0%nat) = Returned f1
    /\ result (compute_errors empty_region 0%nat) = Returned f2
    /\ result (double_est 3 4 0%nat) = Returned d
    /\ std_dev f1 <= std_dev total
    /\ std_dev f2 <= std_dev total
    /\ std_dev d <= std_dev total
    /\ std_dev total <= std_dev f1 + std_dev f2 + std_dev d.
Proof.
  apply (combined_uncertainty_bounds scenario_region1 empty_region 3 4 0%nat
           scenario_region1_defined empty_region_defined).
  lra.
Defined.

(** ** The bin loop *)

Section BinLoop.

Variable y : yields.

Lemma fill_bin_defined (i c : nat) :
  bin_defined y i ->
  exists c',
    fill_bin (fake1 y i) (fake2 y i) (doubles y i) (doubles_en y i) c
    = Returned ((bin_content y i, bin_error y i), c').
Proof.
  intros (Hr1 & Hr2 & Hn).
  destruct (estimate_closed_form (fake1 y i) (fake2 y i) (doubles y i)
              (doubles_en y i) c Hr1 Hr2 Hn)
    as (t & c' & Hrun & Hnom & Hvar).
  exists c'. rewrite (fill_bin_steps _ _ _ _ _ _ _ Hrun).
  unfold bin_content, bin_error.
  rewrite std_dev_variance, Hnom, Hvar. reflexivity.
Qed.

Lemma fill_bin_raises (i c : nat) (e : exception) :
  estimate_error (fake1 y i) (fake2 y i) (doubles_en y i) e ->
  fill_bin (fake1 y i) (fake2 y i) (doubles y i) (doubles_en y i) c
  = Raised e.
Proof.
  intros He. unfold fill_bin, bind.
  rewrite (estimate_error_raises _ _ (doubles y i) _ e c He). reflexivity.
Qed.

Lemma bin_cases (i : nat) :
  bin_defined y i
  \/ exists e, estimate_error (fake1 y i) (fake2 y i) (doubles_en y i) e.
Proof. apply estimate_cases. Qed.

Lemma for_each_defined (l : list nat) (c : nat) :
  (forall i, In i l -> bin_defined y i) ->
  exists c',
    for_each l (loop_body y) c
    = Returned (map (fun i => (i, (bin_content y i, bin_error y i))) l, c').
Proof.
  revert c. induction l as [| a l IH]; intros c Hall.
  - exists c. reflexivity.
  - destruct (fill_bin_defined a c (Hall a (or_introl eq_refl)))
      as (c1 & Hbin).
    destruct (IH c1 (fun i Hi => Hall i (or_intror Hi))) as (c2 & Hrest).
    exists c2. cbn [for_each map]. unfold bind at 1. unfold loop_body at 1.
    unfold bind at 1. rewrite Hbin. unfold ret at 1.
    unfold bind at 1. rewrite Hrest. reflexivity.
Qed.

Lemma for_each_stops (pre post : list nat) (i c : nat) (e : exception) :
  (forall j, In j pre -> bin_defined y j) ->
  estimate_error (fake1 y i) (fake2 y i) (doubles_en y i) e ->
  for_each (pre ++ i :: post) (loop_body y) c = Raised e.
Proof.
  revert c. induction pre as [| a pre IH]; intros c Hall He.
  - cbn [app for_each]. unfold bind at 1. unfold loop_body at 1.
    unfold bind at 1. rewrite (fill_bin_raises i c e He). reflexivity.
  - destruct (fill_bin_defined a c (Hall a (or_introl eq_refl)))
      as (c1 & Hbin).
    cbn [app for_each]. unfold bind at 1. unfold loop_body at 1.
    unfold bind at 1. rewrite Hbin. unfold ret at 1.
    unfold bind at 1.
    rewrite (IH c1 (fun j Hj => Hall j (or_intror Hj)) He). reflexivity.
Qed.

Lemma for_each_returns_inv (l : list nat) (c c' : nat)
      (out : list (nat * (R * R))) :
  for_each l (loop_body y) c = Returned (out, c') ->
  forall i, In i l -> bin_defined y i.
Proof.
  revert c c' out. induction l as [| a l IH]; intros c c' out Hrun i Hi.
  - destruct Hi.
  - cbn [for_each] in Hrun. unfold bind at 1 in Hrun.
    unfold loop_body at 1 in Hrun. unfold bind at 1 in Hrun.
    destruct (bin_cases a) as [Hdef | [e He]].
    + destruct (fill_bin_defined a c Hdef) as (c1 & Hbin).
      rewrite Hbin in Hrun. unfold ret at 1 in Hrun.
      unfold bind at 1 in Hrun.
      destruct (for_each l (loop_body y) c1) as [[rest c2] | e] eqn:Hrest;
        [| discriminate Hrun].
      destruct Hi as [Ha | Hi]; [subst i; exact Hdef |].
      exact (IH c1 c2 rest Hrest i Hi).
    + rewrite (fill_bin_raises a c e He) in Hrun. discriminate Hrun.
Qed.

Lemma seq_split (n i : nat) :
  (i < n)%nat -> seq 0 n = seq 0 i ++ i :: seq (S i) (n - S i).
Proof.
  intros Hi. replace n with (i + S (n - S i))%nat at 1 by lia.
  rewrite seq_app. reflexivity.
Qed.

End BinLoop.

Lemma scenario_yields_defined (i : nat) : bin_defined scenario_yields i.
Proof.
  unfold bin_defined.
  change (fake1 scenario_yields i) with scenario_region1.
  change (doubles_en scenario_yields i) with 0.
  split; [exact scenario_region1_defined |].
  split; [left; reflexivity | lra].
Qed.

Lemma fill_all_fakes_defined (y : yields) (GetNbinsX c : nat) :
  (forall i, (i < GetNbinsX + 2)%nat -> bin_defined y i) ->
  result (fill_all_fakes y GetNbinsX c)
  = Returned (map (fun i => (i, (bin_content y i, bin_error y i)))
                  (seq 0 (GetNbinsX + 2))).
Proof.
  intros Hall. unfold fill_all_fakes.
  destruct (for_each_defined y (seq 0 (GetNbinsX + 2)) c) as (c' & Hrun).
  - intros i Hi. apply Hall. apply in_seq in Hi. lia.
  - rewrite Hrun. reflexivity.
Qed.

Lemma py_max_nonneg (x : R) : 0 <= py_max 0 x.
Proof. unfold py_max. destruct (Rlt_dec 0 x); lra. Qed.

(** X12. The bin loop runs to its end only if every bin from 0 (the
    underflow bin) to [GetNbinsX()+1] (the overflow bin) has regions on
    which [compute_errors] is defined, ['en'] zero or ['en'] and ['123en']
    both positive, and a doubly enriched count that is not negative. *)
Theorem fill_all_fakes_returns_only_on_defined_bins
        (y : yields) (GetNbinsX c : nat) (out : list (nat * (R * R))) :
  result (fill_all_fakes y GetNbinsX c) = Returned out ->
  forall i, (i < GetNbinsX + 2)%nat -> bin_defined y i.
Proof.
  intros Hout i Hi. unfold fill_all_fakes in Hout.
  destruct (for_each (seq 0 (GetNbinsX + 2)) (loop_body y) c)
    as [[out' c'] | e] eqn:Hrun; [| discriminate Hout].
  apply (for_each_returns_inv y _ c c' out' Hrun).
  apply in_seq. lia.
Qed.

Lemma fill_all_fakes_returns_only_on_defined_bins_witness :
  exists out,
    result (fill_all_fakes scenario_yields 1 0%nat) = Returned out
    /\ forall i, (i < 1 + 2)%nat -> bin_defined scenario_yields i.
Proof.
  assert (Hrun : result (fill_all_fakes scenario_yields 1 0%nat)
                 = Returned
                     (map (fun i => (i, (bin_content scenario_yields i,
                                         bin_error scenario_yields i)))
                          (seq 0 (1 + 2))))
    by (apply fill_all_fakes_defined; intros i _;
        apply scenario_yields_defined).
  eexists. split; [exact Hrun |].
  exact (fill_all_fakes_returns_only_on_defined_bins
           scenario_yields 1 0%nat _ Hrun).
Defined.

(** X13. When every bin is defined, the loop writes the bins
    0, 1, ..., [GetNbinsX()+1] in this order, each one once; the content of
    bin [i] is the larger of 0 and the sum of the central values of the two
    regions minus the one of the double-object term, and its error is the
    root of the sum of the three variances, all read at bin [i]. *)
Theorem fill_all_fakes_values (y : yields) (GetNbinsX c : nat) :
  (forall i, (i < GetNbinsX + 2)%nat -> bin_defined y i) ->
  result (fill_all_fakes y GetNbinsX c)
  = Returned (map (fun i => (i, (bin_content y i, bin_error y i)))
                  (seq 0 (GetNbinsX + 2))).
Proof.
  intros Hall. unfold fill_all_fakes.
  destruct (for_each_defined y (seq 0 (GetNbinsX + 2)) c) as (c' & Hrun).
  - intros i Hi. apply Hall. apply in_seq in Hi.
    destruct Hi as [_ Hi]. exact Hi.
  - rewrite Hrun. cbn [result]. reflexivity.
Qed.

Lemma fill_all_fakes_values_witness :
  result (fill_all_fakes scenario_yields 1 0%nat)
  = Returned [(0%nat, (bin_content scenario_yields 0,
                       bin_error scenario_yields 0));
              (1%nat, (bin_content scenario_yields 1,
                       bin_error scenario_yields 1));
              (2%nat, (bin_content scenario_yields 2,
                       bin_error scenario_yields 2))].
Proof.
  apply (fill_all_fakes_values scenario_yields 1 0%nat).
  intros i _. apply scenario_yields_defined.
Defined.

(** X14. Whatever the loop has written when it ends is one entry for each
    bin from 0 to [GetNbinsX()+1], in increasing order, and no entry has a
    negative content or a negative error. *)
Theorem fill_all_fakes_writes_every_bin
        (y : yields) (GetNbinsX c : nat) (out : list (nat * (R * R))) :
  result (fill_all_fakes y GetNbinsX c) = Returned out ->
  map fst out = seq 0 (GetNbinsX + 2)
  /\ length out = (GetNbinsX + 2)%nat
  /\ Forall (fun w => 0 <= fst (snd w) /\ 0 <= snd (snd w)) out.
Proof.
  intros Hout.
  assert (Hall : forall i, (i < GetNbinsX + 2)%nat -> bin_defined y i).
  { intros i Hi. unfold fill_all_fakes in Hout.
    destruct (for_each (seq 0 (GetNbinsX + 2)) (loop_body y) c)
      as [[out' c'] | e] eqn:Hrun; [| discriminate Hout].
    apply (for_each_returns_inv y _ c c' out' Hrun).
    apply in_seq. lia. }
  rewrite (fill_all_fakes_defined y GetNbinsX c Hall) in Hout.
  injection Hout as Hout. subst out.
  split; [| split].
  - rewrite map_map. cbn [fst]. apply map_id.
  - rewrite length_map, length_seq. reflexivity.
  - apply Forall_map, Forall_forall. intros i _. cbn [fst snd]. split.
    + apply py_max_nonneg.
    + apply sqrt_pos.
Qed.

Lemma fill_all_fakes_writes_every_bin_witness :
  exists out,
    result (fill_all_fakes scenario_yields 1 0%nat) = Returned out
    /\ map fst out = [0%nat; 1%nat; 2%nat]
    /\ length out = 3%nat
    /\ Forall (fun w => 0 <= fst (snd w) /\ 0 <= snd (snd w)) out.
Proof.
  assert (Hrun : result (fill_all_fakes scenario_yields 1 0%nat)
                 = Returned
                     (map (fun i => (i, (bin_content scenario_yields i,
                                         bin_error scenario_yields i)))
                          (seq 0 (1 + 2))))
    by (apply fill_all_fakes_defined; intros i _;
        apply scenario_yields_defined).
  eexists. split; [exact Hrun |].
  exact (fill_all_fakes_writes_every_bin scenario_yields 1 0%nat _ Hrun).
Defined.

Lemma fill_all_fakes_stops (y : yields) (GetNbinsX i c : nat)
      (e : exception) :
  (i < GetNbinsX + 2)%nat ->
  (forall j, (j < i)%nat -> bin_defined y j) ->
  estimate_error (fake1 y i) (fake2 y i) (doubles_en y i) e ->
  result (fill_all_fakes y GetNbinsX c) = Raised e.
Proof.
  intros Hi Hbefore He. unfold fill_all_fakes.
  rewrite (seq_split (GetNbinsX + 2) i Hi).
  rewrite (for_each_stops y (seq 0 i) _ i c e); [reflexivity | | exact He].
  intros j Hj. apply Hbefore. apply in_seq in Hj. lia.
Qed.

(** X15. The loop stops at the first bin on which the estimator does not
    return, with the exception [estimate_fake_sum] raises on the yields of
    that bin. *)
Theorem fill_all_fakes_stops_at_first_undefined_bin
        (y : yields) (GetNbinsX i c : nat) :
  (i < GetNbinsX + 2)%nat ->
  (forall j, (j < i)%nat -> bin_defined y j) ->
  ~ bin_defined y i ->
  exists e,
    result (fill_all_fakes y GetNbinsX c) = Raised e
    /\ forall c',
         result (estimate_fake_sum (fake1 y i) (fake2 y i) (doubles y i)
                                   (doubles_en y i) c')
         = Raised e.
Proof.
  intros Hi Hbefore Hundef.
  destruct (bin_cases y i) as [Hdef | [e He]]; [contradiction |].
  exists e. split.
  - exact (fill_all_fakes_stops y GetNbinsX i c e Hi Hbefore He).
  - intros c'.
    rewrite (estimate_error_raises _ _ (doubles y i) _ e c' He).
    reflexivity.
Qed.

Lemma degenerate_yields_undefined (i : nat) :
  ~ bin_defined degenerate_yields i.
Proof.
  intros [Hr1 _].
  change (fake1 degenerate_yields i)
    with {| en := 1; ewk_s := 0; qcd_s := 0; _123 := 0; _123en := 0 |}
    in Hr1.
  unfold region_defined in Hr1. cbn [en _123en] in Hr1. lra.
Qed.

Lemma fill_all_fakes_stops_at_first_undefined_bin_witness :
  exists e,
    result (fill_all_fakes degenerate_yields 1 0%nat) = Raised e
    /\ forall c',
         result (estimate_fake_sum (fake1 degenerate_yields 0)
                                   (fake2 degenerate_yields 0)
                                   (doubles degenerate_yields 0)
                                   (doubles_en degenerate_yields 0) c')
         = Raised e.
Proof.
  apply (fill_all_fakes_stops_at_first_undefined_bin
           degenerate_yields 1 0%nat 0%nat).
  - lia.
  - intros j Hj. lia.
  - apply degenerate_yields_undefined.
Defined.

(** X16. Both dictionaries of a bin read their ['123en'] from the same
    histogram, [fr123en].  In the first bin where that histogram is empty
    while [fr1en] or [fr2en] has events, the counts not being negative, the
    loop stops with [ZeroDivisionError]. *)
Theorem empty_triple_fake_bin_stops_the_loop
        (y : yields) (GetNbinsX i c : nat) :
  (i < GetNbinsX + 2)%nat ->
  (forall j, (j < i)%nat -> bin_defined y j) ->
  y "fr123en"%string i = 0 ->
  0 <= y "fr1en"%string i -> 0 <= y "fr2en"%string i ->
  0 < y "fr1en"%string i \/ 0 < y "fr2en"%string i ->
  result (fill_all_fakes y GetNbinsX c) = Raised ZeroDivisionError.
Proof.
  intros Hi Hbefore Hempty H1 H2 Hevents.
  apply (fill_all_fakes_stops y GetNbinsX i c ZeroDivisionError Hi Hbefore).
  unfold estimate_error, region_error, region_degenerate, region_defined.
  cbn [fake1 fake2 en _123en]. rewrite Hempty.
  destruct H1 as [Hpos1 | Hz1].
  - left. right. repeat split; [exact Hpos1].
  - right. left. split; [left; symmetry; exact Hz1 |].
    right. destruct Hevents as [Hpos1 | Hpos2]; [lra |].
    repeat split; exact Hpos2.
Qed.

Lemma empty_triple_fake_bin_stops_the_loop_witness :
  result (fill_all_fakes degenerate_yields 1 0%nat)
  = Raised ZeroDivisionError.
Proof.
  apply (empty_triple_fake_bin_stops_the_loop
           degenerate_yields 1 0%nat 0%nat).
  - lia.
  - intros j Hj. lia.
  - reflexivity.
  - change (0 <= 1). lra.
  - change (0 <= 0). lra.
  - left. change (0 < 1). lra.
Defined.
